(** * BioDaemon: fatigue engine, session-lock monitor and tick orchestrator

    A shallow embedding of [daemon.py].  Python integers are [Z]; the
    state names and queue tags are strings, as in the source; the float
    timestamps of [time.time()] are rationals [Q], as every float is one;
    the difference of two timestamps is taken by [float_sub], which stands
    for float subtraction with its rounding; an object attribute that is
    [None] or a value is an [option]. *)

From Stdlib Require Import ZArith QArith String List Bool Lia.
Import ListNotations.

Local Open Scope Z_scope.

(** ** Settings (module-level constants of [daemon.py]) *)

Definition LIMIT_ROUND : Z := 45.
Definition LIMIT_SLOUCH : Z := 60.
Definition LIMIT_MELT : Z := 70.
Definition LIMIT_FLAT : Z := 80.
Definition LIMIT_DEATH : Z := 80.

Definition MIN_BREAK_TIME : Z := 2.
Definition FULL_RESET_TIME : Z := 15.

(** ** Data model *)

(** The tray notifications sent through [safe_notify].  The title and the
    formatted body are kept as a tag with the numbers that the f-string
    interpolates:
    - [PerfectBreak n]  : "Perfect Break", "Fully Rested! You have n mins ..."
    - [WelcomeBack h m] : "Welcome Back", "Recovered h HP. You have m mins ..."
    - [RIP]             : "RIP", " Pixel has died of neglect." *)
Inductive Notification : Type :=
| PerfectBreak (safe_minutes : Z)
| WelcomeBack (recovered safe_minutes_left : Z)
| RIP.

(** The [pystray.Icon] object as far as the daemon writes to it: the key of
    the image it shows and the notifications sent so far (oldest first). *)
Record Tray : Type := mkTray {
  tray_image : string;
  tray_notified : list Notification
}.

(** The attributes of a [BioDaemon] instance ([__init__], lines 30-48).
    The preloaded images and the GUI queue carry no state of the core. *)
Record BioDaemon : Type := mkBioDaemon {
  fatigue : Z;
  state : string;
  running : bool;
  icon : option Tray;
  is_locked : bool;
  lock_start_time : Q;
  _session_events : bool;
  _wndproc : option Z;
  _orig_wndproc : option Z;
  _hwnd : option Z
}.

Definition init : BioDaemon :=
  {| fatigue := 0; state := "round"; running := true; icon := None;
     is_locked := false; lock_start_time := 0%Q;
     _session_events := false; _wndproc := None; _orig_wndproc := None;
     _hwnd := None |}.

(** Attribute assignments. *)
Definition set_fatigue (v : Z) (s : BioDaemon) : BioDaemon :=
  {| fatigue := v; state := state s; running := running s; icon := icon s;
     is_locked := is_locked s; lock_start_time := lock_start_time s;
     _session_events := _session_events s; _wndproc := _wndproc s;
     _orig_wndproc := _orig_wndproc s; _hwnd := _hwnd s |}.

Definition set_state (v : string) (s : BioDaemon) : BioDaemon :=
  {| fatigue := fatigue s; state := v; running := running s; icon := icon s;
     is_locked := is_locked s; lock_start_time := lock_start_time s;
     _session_events := _session_events s; _wndproc := _wndproc s;
     _orig_wndproc := _orig_wndproc s; _hwnd := _hwnd s |}.

Definition set_running (v : bool) (s : BioDaemon) : BioDaemon :=
  {| fatigue := fatigue s; state := state s; running := v; icon := icon s;
     is_locked := is_locked s; lock_start_time := lock_start_time s;
     _session_events := _session_events s; _wndproc := _wndproc s;
     _orig_wndproc := _orig_wndproc s; _hwnd := _hwnd s |}.

Definition set_icon (v : option Tray) (s : BioDaemon) : BioDaemon :=
  {| fatigue := fatigue s; state := state s; running := running s; icon := v;
     is_locked := is_locked s; lock_start_time := lock_start_time s;
     _session_events := _session_events s; _wndproc := _wndproc s;
     _orig_wndproc := _orig_wndproc s; _hwnd := _hwnd s |}.

Definition set_is_locked (v : bool) (s : BioDaemon) : BioDaemon :=
  {| fatigue := fatigue s; state := state s; running := running s;
     icon := icon s; is_locked := v; lock_start_time := lock_start_time s;
     _session_events := _session_events s; _wndproc := _wndproc s;
     _orig_wndproc := _orig_wndproc s; _hwnd := _hwnd s |}.

Definition set_lock_start_time (v : Q) (s : BioDaemon) : BioDaemon :=
  {| fatigue := fatigue s; state := state s; running := running s;
     icon := icon s; is_locked := is_locked s; lock_start_time := v;
     _session_events := _session_events s; _wndproc := _wndproc s;
     _orig_wndproc := _orig_wndproc s; _hwnd := _hwnd s |}.

Definition set_session_events (v : bool) (s : BioDaemon) : BioDaemon :=
  {| fatigue := fatigue s; state := state s; running := running s;
     icon := icon s; is_locked := is_locked s;
     lock_start_time := lock_start_time s;
     _session_events := v; _wndproc := _wndproc s;
     _orig_wndproc := _orig_wndproc s; _hwnd := _hwnd s |}.

Definition set_wndproc (v : option Z) (s : BioDaemon) : BioDaemon :=
  {| fatigue := fatigue s; state := state s; running := running s;
     icon := icon s; is_locked := is_locked s;
     lock_start_time := lock_start_time s;
     _session_events := _session_events s; _wndproc := v;
     _orig_wndproc := _orig_wndproc s; _hwnd := _hwnd s |}.

Definition set_orig_wndproc (v : option Z) (s : BioDaemon) : BioDaemon :=
  {| fatigue := fatigue s; state := state s; running := running s;
     icon := icon s; is_locked := is_locked s;
     lock_start_time := lock_start_time s;
     _session_events := _session_events s; _wndproc := _wndproc s;
     _orig_wndproc := v; _hwnd := _hwnd s |}.

Definition set_hwnd (v : option Z) (s : BioDaemon) : BioDaemon :=
  {| fatigue := fatigue s; state := state s; running := running s;
     icon := icon s; is_locked := is_locked s;
     lock_start_time := lock_start_time s;
     _session_events := _session_events s; _wndproc := _wndproc s;
     _orig_wndproc := _orig_wndproc s; _hwnd := v |}.

(** ** Helper functions (lines 68-104) *)

(** [safe_notify]: a notification goes out only when the tray icon exists;
    a failure of the backend is swallowed. *)
Definition safe_notify (n : Notification) (s : BioDaemon) : BioDaemon :=
  match icon s with
  | Some t =>
      set_icon (Some {| tray_image := tray_image t;
                        tray_notified := tray_notified t ++ [n] |}) s
  | None => s
  end.

Definition get_current_state (s : BioDaemon) : string :=
  if fatigue s <? LIMIT_ROUND then "round"
  else if fatigue s <? LIMIT_SLOUCH then "slouch"
  else if fatigue s <? LIMIT_MELT then "melt"
  else if fatigue s <? LIMIT_FLAT then "flat"
  else "tombstone".

(** [update_icon]: the cached state follows the score; the tray, when it
    exists, shows the image of the new state (the menu is UI glue and is
    not modelled) and announces the tombstone. *)
Definition update_icon (s : BioDaemon) : BioDaemon :=
  let new_state := get_current_state s in
  if String.eqb new_state (state s) then s
  else
    let s1 := set_state new_state s in
    match icon s1 with
    | Some t =>
        let s2 := set_icon (Some {| tray_image := new_state;
                                    tray_notified := tray_notified t |}) s1 in
        if String.eqb new_state "tombstone" then safe_notify RIP s2 else s2
    | None => s1
    end.

(** ** Fatigue and recovery (lines 109-144) *)

(** What [calculate_healing] returns: an integer or the tag "FULL_RESET". *)
Inductive heal_result : Type :=
| Amount (n : Z)
| FULL_RESET.

Definition calculate_healing (minutes_away : Z) : heal_result :=
  if minutes_away <? MIN_BREAK_TIME then Amount 0
  else if FULL_RESET_TIME <=? minutes_away then FULL_RESET
  else if minutes_away <? 5 then Amount (minutes_away * 2)
  else Amount (minutes_away * 4).

Definition clamp_fatigue (s : BioDaemon) : BioDaemon :=
  set_fatigue (Z.max 0 (Z.min (fatigue s) LIMIT_DEATH)) s.

(** Python's [int(x)] on a number: truncation toward zero. *)
Definition py_int (x : Q) : Z := Z.quot (Qnum x) (Zpos (Qden x)).

(** ** Exceptions and native calls *)

(** The result of a call that may raise: a value, or a Python exception
    (which one is never inspected: every handler is [except Exception]). *)
Inductive outcome (A : Type) : Type :=
| Ret (a : A)
| Raised.
Arguments Ret {A} a.
Arguments Raised {A}.

(** Truth value of a pointer-like attribute: [None] and 0 are false. *)
Definition truthy (p : option Z) : bool :=
  match p with
  | Some v => negb (v =? 0)
  | None => false
  end.

(** A [ctypes.c_void_p] result is [None] for NULL and an integer otherwise;
    [ctypes.c_void_p(x)] turns [None] back into NULL. *)
Definition c_void_p_result (p : Z) : option Z :=
  if p =? 0 then None else Some p.

Definition c_void_p (x : option Z) : Z :=
  match x with
  | Some p => p
  | None => 0
  end.

(** The Win32 calls that touch the hidden Tk window, in the order issued. *)
Inductive NativeCall : Type :=
| GetWindowLongPtrW (hwnd : Z)
| SetWindowLongPtrW (hwnd : Z) (new_proc : Z)
| WTSRegisterSessionNotification (hwnd : Z)
| WTSUnRegisterSessionNotification (hwnd : Z).

(** The host side of the hook: the window procedure of the Tk window, whether
    the window is registered for session notifications, and the log of the
    calls made so far (oldest first). *)
Record World : Type := mkWorld {
  window_proc : Z;
  session_registered : bool;
  native_calls : list NativeCall
}.

(** How one native call goes: it works, it reports failure through its
    return value (NULL or FALSE) and changes nothing, or it raises. *)
Inductive Fault : Type :=
| NoFault
| Fails
| Raises.

Definition log_call (c : NativeCall) (w : World) : World :=
  {| window_proc := window_proc w;
     session_registered := session_registered w;
     native_calls := native_calls w ++ [c] |}.

Definition call_GetWindowLongPtrW (f : Fault) (hwnd : Z) (w : World)
  : outcome (option Z) * World :=
  let w' := log_call (GetWindowLongPtrW hwnd) w in
  match f with
  | NoFault => (Ret (c_void_p_result (window_proc w)), w')
  | Fails => (Ret None, w')
  | Raises => (Raised, w')
  end.

(** On success the previous procedure is returned and the new one set. *)
Definition call_SetWindowLongPtrW (f : Fault) (hwnd new_proc : Z) (w : World)
  : outcome (option Z) * World :=
  let w' := log_call (SetWindowLongPtrW hwnd new_proc) w in
  match f with
  | NoFault =>
      (Ret (c_void_p_result (window_proc w)),
       {| window_proc := new_proc;
          session_registered := session_registered w';
          native_calls := native_calls w' |})
  | Fails => (Ret None, w')
  | Raises => (Raised, w')
  end.

Definition call_WTSRegisterSessionNotification (f : Fault) (hwnd : Z)
  (w : World) : outcome bool * World :=
  let w' := log_call (WTSRegisterSessionNotification hwnd) w in
  match f with
  | NoFault =>
      (Ret true,
       {| window_proc := window_proc w'; session_registered := true;
          native_calls := native_calls w' |})
  | Fails => (Ret false, w')
  | Raises => (Raised, w')
  end.

Definition call_WTSUnRegisterSessionNotification (f : Fault) (hwnd : Z)
  (w : World) : outcome bool * World :=
  let w' := log_call (WTSUnRegisterSessionNotification hwnd) w in
  match f with
  | NoFault =>
      (Ret true,
       {| window_proc := window_proc w'; session_registered := false;
          native_calls := native_calls w' |})
  | Fails => (Ret false, w')
  | Raises => (Raised, w')
  end.

(** A method of the daemon that talks to the host: it runs on the instance
    and the host state, and returns or raises. *)
Definition M (A : Type) : Type :=
  BioDaemon * World -> outcome A * (BioDaemon * World).

Definition ret {A : Type} (a : A) : M A := fun sw => (Ret a, sw).

Definition raise {A : Type} : M A := fun sw => (Raised, sw).

Definition bind {A B : Type} (c : M A) (k : A -> M B) : M B :=
  fun sw =>
    match c sw with
    | (Ret a, sw') => k a sw'
    | (Raised, sw') => (Raised, sw')
    end.

Definition get_self : M BioDaemon := fun sw => (Ret (fst sw), sw).

Definition modify_self (f : BioDaemon -> BioDaemon) : M unit :=
  fun sw => (Ret tt, (f (fst sw), snd sw)).

Definition native {A : Type} (c : World -> outcome A * World) : M A :=
  fun sw => let (r, w') := c (snd sw) in (r, (fst sw, w')).

(** [try: body / except Exception: handler]. *)
Definition try_except {A : Type} (body handler : M A) : M A :=
  fun sw =>
    match body sw with
    | (Ret a, sw') => (Ret a, sw')
    | (Raised, sw') => handler sw'
    end.

(** [try: body / finally: final]. *)
Definition try_finally {A : Type} (body : M A) (final : M unit) : M A :=
  fun sw =>
    match body sw with
    | (r, sw') =>
        match final sw' with
        | (Ret _, sw'') => (r, sw'')
        | (Raised, sw'') => (Raised, sw'')
        end
    end.

Declare Scope daemon_scope.
Delimit Scope daemon_scope with daemon.
Notation "x <- c ;; k" := (bind c (fun x => k))
  (at level 61, c at next level, right associativity) : daemon_scope.
Notation "c ;; k" := (bind c (fun _ => k))
  (at level 61, right associativity) : daemon_scope.

(** ASCII lower-casing, as [str.lower] acts on a desktop name. *)
Definition lower_ascii (c : Ascii.ascii) : Ascii.ascii :=
  let n := Ascii.nat_of_ascii c in
  if (Nat.leb 65 n && Nat.leb n 90)%bool
  then Ascii.ascii_of_nat (n + 32) else c.

Fixpoint lower (s : string) : string :=
  match s with
  | EmptyString => EmptyString
  | String c s' => String (lower_ascii c) (lower s')
  end.

(** Session-change message constants (lines 183-185). *)
Definition WM_WTSSESSION_CHANGE : Z := 689.
Definition WTS_SESSION_LOCK : Z := 7.
Definition WTS_SESSION_UNLOCK : Z := 8.

(** What the host does during one run of [install_session_notifications]:
    the result of [root.winfo_id()] and how each native call goes. *)
Record InstallEnv : Type := mkInstallEnv {
  winfo_id : outcome Z;
  get_wndproc_fault : Fault;
  swap_fault : Fault;
  register_fault : Fault;
  rollback_fault : Fault
}.

(** The same for [uninstall_session_notifications]. *)
Record UninstallEnv : Type := mkUninstallEnv {
  unregister_fault : Fault;
  restore_fault : Fault
}.

(** What the host answers during one run of [check_lock_state_fallback]:
    - [OpenInputDesktop]: the handle, 0 when the desktop cannot be opened;
    - [GetUserObjectInformationW]: the name written to the buffer, [None]
      when the call returns 0;
    - [GetLastInputInfo]: the [dwTime] of the last input, [None] when the
      call returns 0;
    - [get_tick]: the tick count, from [GetTickCount64] or [GetTickCount]. *)
Record ProbeEnv : Type := mkProbeEnv {
  OpenInputDesktop : outcome Z;
  GetUserObjectInformationW : outcome (option string);
  CloseDesktop : outcome unit;
  GetLastInputInfo : outcome (option Z);
  get_tick : outcome Z
}.

Section Daemon.

(** [DEBUG_MODE]: when set, one second counts as one minute. *)
Variable DEBUG_MODE : bool.

(** [sys.platform]. *)
Variable sys_platform : string.

(** The address of the [py_wndproc] callback thunk handed to the host. *)
Variable py_wndproc_ptr : Z.

(** The difference of two timestamps as the subtraction of floats computes
    it, rounded to a float (lines 213 and 387). *)
Variable float_sub : Q -> Q -> Q.

(** Line 129: [int(duration_seconds / (1 if DEBUG_MODE else 60))]. *)
Definition minutes_away (duration_seconds : Q) : Z :=
  py_int (duration_seconds / (if DEBUG_MODE then 1 else 60))%Q.

Definition handle_unlock_heal (duration_seconds : Q) (s : BioDaemon)
  : BioDaemon :=
  let minutes := minutes_away duration_seconds in
  let s1 :=
    if fatigue s <? LIMIT_DEATH then
      match calculate_healing minutes with
      | FULL_RESET =>
          safe_notify (PerfectBreak LIMIT_ROUND) (set_fatigue 0 s)
      | Amount heal =>
          if 0 <? heal then
            let s' := set_fatigue (Z.max 0 (fatigue s - heal)) s in
            let safe_minutes_left := Z.max 0 (LIMIT_ROUND - fatigue s') in
            safe_notify (WelcomeBack heal safe_minutes_left) s'
          else s
      end
    else s in
  update_icon (clamp_fatigue s1).

(** ** Windows lock/unlock integration (lines 149-262) *)

(** The replacement window procedure (lines 205-219), called by the host's
    message loop at time [now]; the second component is the procedure the
    message is forwarded to ([None]: nothing to forward to, 0 is returned). *)
Definition py_wndproc (now : Q) (msg wParam : Z) (s : BioDaemon)
  : BioDaemon * option Z :=
  let s1 :=
    if msg =? WM_WTSSESSION_CHANGE then
      if wParam =? WTS_SESSION_LOCK then
        set_lock_start_time now (set_is_locked true s)
      else if wParam =? WTS_SESSION_UNLOCK then
        let unlock_time := now in
        let s' := set_is_locked false s in
        let duration :=
          if Qeq_bool (lock_start_time s') 0 then 0%Q
          else float_sub unlock_time (lock_start_time s') in
        handle_unlock_heal duration (set_lock_start_time 0%Q s')
      else s
    else s in
  (s1, if truthy (_orig_wndproc s1) then _orig_wndproc s1 else None).

(** The three assignments that end a failed installation. *)
Definition clear_hook (s : BioDaemon) : BioDaemon :=
  set_session_events false (set_orig_wndproc None (set_wndproc None s)).

Local Open Scope daemon_scope.

Definition install_session_notifications (env : InstallEnv) : M unit :=
  if negb (String.eqb sys_platform "win32") then ret tt
  else
    hwnd <- try_except
              (match winfo_id env with
               | Ret hwnd_int =>
                   modify_self (set_hwnd (Some hwnd_int)) ;;
                   ret (Some hwnd_int)
               | Raised => raise
               end)
              (modify_self (set_hwnd None) ;; ret None) ;;
    match hwnd with
    | None => ret tt
    | Some hwnd =>
        orig_wndproc_ptr <-
          native (call_GetWindowLongPtrW (get_wndproc_fault env) hwnd) ;;
        modify_self (set_orig_wndproc orig_wndproc_ptr) ;;
        prev <- native (call_SetWindowLongPtrW (swap_fault env) hwnd
                          py_wndproc_ptr) ;;
        if truthy prev then
          modify_self (set_wndproc (Some py_wndproc_ptr)) ;;
          ok <- native (call_WTSRegisterSessionNotification
                          (register_fault env) hwnd) ;;
          if ok then modify_self (set_session_events true)
          else
            self <- get_self ;;
            native (call_SetWindowLongPtrW (rollback_fault env) hwnd
                      (c_void_p (_orig_wndproc self))) ;;
            modify_self clear_hook
        else modify_self clear_hook
    end.

Definition uninstall_session_notifications (env : UninstallEnv) : M unit :=
  if negb (String.eqb sys_platform "win32") then ret tt
  else
    try_finally
      (try_except
         (self <- get_self ;;
          (if (truthy (_hwnd self) && _session_events self)%bool then
             native (call_WTSUnRegisterSessionNotification
                       (unregister_fault env) (c_void_p (_hwnd self))) ;;
             ret tt
           else ret tt) ;;
          (if (truthy (_hwnd self) && truthy (_orig_wndproc self)
               && match _wndproc self with Some _ => true | None => false end)%bool
           then
             native (call_SetWindowLongPtrW (restore_fault env)
                       (c_void_p (_hwnd self))
                       (c_void_p (_orig_wndproc self))) ;;
             ret tt
           else ret tt))
         (ret tt))
      (modify_self
         (fun s =>
            set_hwnd None
              (set_orig_wndproc None
                 (set_wndproc None (set_session_events false s))))).

Local Close Scope daemon_scope.

(** ** Backup lock detection (lines 267-315) *)

(** The [except Exception] branch: the idle-time heuristic.  Nothing guards
    the calls made here. *)
Definition idle_time_heuristic (env : ProbeEnv) : outcome bool :=
  match GetLastInputInfo env with
  | Raised => Raised
  | Ret (Some dwTime) =>
      match get_tick env with
      | Raised => Raised
      | Ret tick =>
          let idle_ms := tick - dwTime in
          let threshold := if DEBUG_MODE then 10000 else 60000 in
          Ret (threshold <=? idle_ms)
      end
  | Ret None => Ret false
  end.

(** [true] is locked.  A call of the [try] block that raises hands over to
    the idle-time heuristic. *)
Definition check_lock_state_fallback (env : ProbeEnv) : outcome bool :=
  if negb (String.eqb sys_platform "win32") then Ret false
  else
    match OpenInputDesktop env with
    | Raised => idle_time_heuristic env
    | Ret hDesk =>
        if hDesk =? 0 then Ret true
        else
          match GetUserObjectInformationW env with
          | Raised => idle_time_heuristic env
          | Ret ok =>
              let name := match ok with
                          | Some buf => lower buf
                          | None => EmptyString
                          end in
              match CloseDesktop env with
              | Raised => idle_time_heuristic env
              | Ret _ =>
                  if String.eqb name "default" then Ret false
                  else if (String.eqb name "winlogon"
                           || String.eqb name "screensaver")%bool
                  then Ret true
                  else Ret true
              end
          end
    end.

(** ** The timer thread (lines 362-395) *)

(** Lines 374-375 and 391-392: one minute of fatigue, up to the cap. *)
Definition accrue (s : BioDaemon) : BioDaemon :=
  if fatigue s <? LIMIT_DEATH then set_fatigue (fatigue s + 1) s else s.

(** Lines 380-389: what polling does with the probe's answer at time [now],
    before fatigue accrues. *)
Definition detect_transition (now : Q) (currently_locked : bool)
  (s : BioDaemon) : BioDaemon :=
  if currently_locked then
    if negb (is_locked s) then set_lock_start_time now (set_is_locked true s)
    else s
  else
    if is_locked s then
      let s' := set_is_locked false s in
      let duration :=
        if Qeq_bool (lock_start_time s') 0 then 0%Q
        else float_sub now (lock_start_time s') in
      handle_unlock_heal duration (set_lock_start_time 0%Q s')
    else s.

(** One iteration of the loop of [run_timer], after the sleep.  When the
    probe raises, the exception leaves the loop and nothing was written. *)
Definition run_timer_tick (now : Q) (env : ProbeEnv) (s : BioDaemon)
  : outcome BioDaemon :=
  if _session_events s then
    Ret (update_icon (if negb (is_locked s) then accrue s else s))
  else
    match check_lock_state_fallback env with
    | Raised => Raised
    | Ret currently_locked =>
        let s1 := detect_transition now currently_locked s in
        let s2 := if currently_locked then s1 else accrue s1 in
        Ret (update_icon (clamp_fatigue s2))
    end.

(** [run_timer] over the ticks given, while [running] holds. *)
Fixpoint run_timer (ticks : list (Q * ProbeEnv)) (s : BioDaemon)
  : outcome BioDaemon :=
  match ticks with
  | [] => Ret s
  | (now, env) :: rest =>
      if running s then
        match run_timer_tick now env s with
        | Ret s' => run_timer rest s'
        | Raised => Raised
        end
      else Ret s
  end.

(** ** The GUI loop (lines 415-431) *)

(** Lines 424-426: the manual reset behind the confirmation dialog. *)
Definition resurrect (s : BioDaemon) : BioDaemon :=
  update_icon (clamp_fatigue (set_fatigue 0 s)).

(** One message taken from the GUI queue; [askokcancel] is the answer to
    the confirmation dialog. *)
Definition run_main_loop_message (msg : string) (askokcancel : bool)
  (s : BioDaemon) : BioDaemon :=
  if String.eqb msg "SHOW_RESURRECT_DIALOG" then
    if askokcancel then resurrect s else s
  else if String.eqb msg "EXIT" then set_running false s
  else s.

(** ** Everything that writes to the instance after start-up

    The three threads, interleaved at the grain of one loop iteration or
    one callback.  A tick whose probe raises writes nothing. *)
Inductive Event : Type :=
| Tick (now : Q) (env : ProbeEnv)
| WindowMessage (now : Q) (msg wParam : Z)
| GuiMessage (msg : string) (askokcancel : bool).

Definition step (e : Event) (s : BioDaemon) : BioDaemon :=
  match e with
  | Tick now env =>
      match run_timer_tick now env s with
      | Ret s' => s'
      | Raised => s
      end
  | WindowMessage now msg wParam => fst (py_wndproc now msg wParam s)
  | GuiMessage msg askokcancel => run_main_loop_message msg askokcancel s
  end.

Definition run (events : list Event) (s : BioDaemon) : BioDaemon :=
  fold_left (fun s e => step e s) events s.

End Daemon.

(** * Properties *)

(** The score invariant of the data model. *)
Definition fatigue_in_range (s : BioDaemon) : Prop :=
  0 <= fatigue s <= LIMIT_DEATH.

(** Position of a state name in the cascade of [get_current_state]. *)
Definition state_rank (name : string) : Z :=
  if String.eqb name "round" then 0
  else if String.eqb name "slouch" then 1
  else if String.eqb name "melt" then 2
  else if String.eqb name "flat" then 3
  else 4.

(** Closed comparisons and equations over [Z], by evaluation. *)
Ltac by_evaluation :=
  vm_compute; repeat split; solve [reflexivity | discriminate].

(** Unfolds one run of a method of the daemon down to the native calls. *)
Ltac run_method :=
  unfold install_session_notifications, uninstall_session_notifications,
    try_finally, try_except, bind, ret, raise, modify_self, get_self, native,
    call_GetWindowLongPtrW, call_SetWindowLongPtrW,
    call_WTSRegisterSessionNotification,
    call_WTSUnRegisterSessionNotification, clear_hook, log_call;
  cbn.

(** The difference used in the concrete runs: on timestamps that are whole
    seconds, far below 2^53, the subtraction of floats is exact. *)
Definition whole_seconds_sub : Q -> Q -> Q := Qminus.

(** The instance at a given score, everything else as at start. *)
Definition at_score (f : Z) : BioDaemon := set_fatigue f init.

(** The instance once event-driven mode is active. *)
Definition event_driven (s : BioDaemon) : BioDaemon :=
  set_session_events true s.

(** The instance once a lock was recorded at time [t]. *)
Definition locked_since (t : Q) (s : BioDaemon) : BioDaemon :=
  set_lock_start_time t (set_is_locked true s).

(** Answers of the host to the lock probe, used as concrete inputs:
    the interactive desktop; a desktop that cannot be opened; a desktop
    whose name cannot be read; a probe that raises, with an idle-time read
    that fails; a probe that raises, with an idle-time read that raises. *)
Definition probe_default : ProbeEnv :=
  {| OpenInputDesktop := Ret 3;
     GetUserObjectInformationW := Ret (Some "Default"%string);
     CloseDesktop := Ret tt;
     GetLastInputInfo := Ret (Some 0);
     get_tick := Ret 0 |}.

Definition probe_no_desktop : ProbeEnv :=
  {| OpenInputDesktop := Ret 0;
     GetUserObjectInformationW := Ret (Some "Default"%string);
     CloseDesktop := Ret tt;
     GetLastInputInfo := Ret (Some 0);
     get_tick := Ret 0 |}.

Definition probe_name_unreadable : ProbeEnv :=
  {| OpenInputDesktop := Ret 3;
     GetUserObjectInformationW := Ret None;
     CloseDesktop := Ret tt;
     GetLastInputInfo := Ret (Some 0);
     get_tick := Ret 0 |}.

Definition probe_raises_idle_fails : ProbeEnv :=
  {| OpenInputDesktop := Raised;
     GetUserObjectInformationW := Raised;
     CloseDesktop := Raised;
     GetLastInputInfo := Ret None;
     get_tick := Ret 0 |}.

Definition probe_raises_idle_raises : ProbeEnv :=
  {| OpenInputDesktop := Raised;
     GetUserObjectInformationW := Raised;
     CloseDesktop := Raised;
     GetLastInputInfo := Raised;
     get_tick := Ret 0 |}.

(** No hook state is stored on the instance. *)
Definition hook_cleared (s : BioDaemon) : Prop :=
  _session_events s = false /\ _wndproc s = None /\
  _orig_wndproc s = None /\ _hwnd s = None.

(** A host on which every call of the installation works, for the window
    with the given handle. *)
Definition install_works (hwnd : Z) : InstallEnv :=
  {| winfo_id := Ret hwnd; get_wndproc_fault := NoFault;
     swap_fault := NoFault; register_fault := NoFault;
     rollback_fault := NoFault |}.

(** A host on which the swap of the window procedure fails, and one on
    which the registration fails. *)
Definition install_swap_failing (hwnd : Z) : InstallEnv :=
  {| winfo_id := Ret hwnd; get_wndproc_fault := NoFault;
     swap_fault := Fails; register_fault := NoFault;
     rollback_fault := NoFault |}.


(** A host on which both calls of the teardown work, and one on which both
    raise. *)
Definition uninstall_works : UninstallEnv :=
  {| unregister_fault := NoFault; restore_fault := NoFault |}.

Definition uninstall_raising : UninstallEnv :=
  {| unregister_fault := Raises; restore_fault := Raises |}.

(** A host whose Tk window has procedure 4242, before any call. *)
Definition fresh_world : World :=
  {| window_proc := 4242; session_registered := false; native_calls := [] |}.

(** A call of the [try] block of the lock probe raises: opening the input
    desktop, or reading its name, or closing it. *)
Definition desktop_probe_raises (env : ProbeEnv) : Prop :=
  OpenInputDesktop env = Raised \/
  exists hDesk, OpenInputDesktop env = Ret hDesk /\ hDesk <> 0 /\
    (GetUserObjectInformationW env = Raised \/
     exists ok, GetUserObjectInformationW env = Ret ok /\
                CloseDesktop env = Raised).

(** ** The tray and the GUI queue (lines 320-357, 397-431) *)

(** The texts of the tray menu, as tags with the numbers that the f-strings
    interpolate:
    - [DiedOfNeglect] : " DIED OF NEGLECT";  [PerformRitual] : " PERFORM RITUAL"
    - [Healthy r]     : "Healthy: r m left"
    - [Overdue n]     : "Warning: Overdue by n m"
    - [FatigueOf f c] : "Fatigue: f/c"
    - [AutoHeal]      : "Auto-Heal Active (Lock Screen)";  [ExitLabel] : "Exit" *)
Inductive MenuLabel : Type :=
| DiedOfNeglect
| PerformRitual
| Healthy (remaining : Z)
| Overdue (minutes : Z)
| FatigueOf (score cap : Z)
| AutoHeal
| ExitLabel.

(** What a click on a menu item calls. *)
Inductive MenuAction : Type :=
| NoAction
| ActionResurrect
| ActionExit.

Inductive MenuEntry : Type :=
| MenuItem (label : MenuLabel) (action : MenuAction) (enabled : bool)
| SEPARATOR.

(** [create_menu] (lines 334-357). *)
Definition create_menu (s : BioDaemon) : list MenuEntry :=
  if LIMIT_DEATH <=? fatigue s then
    [MenuItem DiedOfNeglect NoAction false;
     MenuItem PerformRitual ActionResurrect true;
     SEPARATOR;
     MenuItem ExitLabel ActionExit true]
  else
    let remaining := Z.max 0 (LIMIT_ROUND - fatigue s) in
    let status :=
      if fatigue s <? LIMIT_ROUND then Healthy remaining
      else Overdue (fatigue s - LIMIT_ROUND) in
    [MenuItem status NoAction false;
     MenuItem (FatigueOf (fatigue s) LIMIT_DEATH) NoAction false;
     SEPARATOR;
     MenuItem AutoHeal NoAction false;
     MenuItem ExitLabel ActionExit true].

(** [action_resurrect] and [on_exit] (lines 320-332), on the GUI queue kept
    as the list of its tags, oldest first. *)
Definition action_resurrect (gui_queue : list string) : list string :=
  gui_queue ++ ["SHOW_RESURRECT_DIALOG"%string].

Definition on_exit (s : BioDaemon) (gui_queue : list string)
  : BioDaemon * list string :=
  (set_running false s, gui_queue ++ ["EXIT"%string]).

(** [run_tray] (lines 397-400): the icon is created with the round image. *)
Definition run_tray (s : BioDaemon) : BioDaemon :=
  set_icon (Some {| tray_image := "round"; tray_notified := [] |}) s.

(** The loop of [run_main_loop] (lines 415-437) over the messages that the
    queue delivers, each with the answer to its dialog: it goes on while
    [running] holds and breaks on "EXIT". *)
Fixpoint gui_loop (messages : list (string * bool)) (s : BioDaemon)
  : BioDaemon :=
  match messages with
  | [] => s
  | (msg, askokcancel) :: rest =>
      if running s then
        let s' := run_main_loop_message msg askokcancel s in
        if (negb (String.eqb msg "SHOW_RESURRECT_DIALOG")
            && String.eqb msg "EXIT")%bool
        then s'
        else gui_loop rest s'
      else s
  end.

(** [run_main_loop] on the main thread (lines 410-443): the installation,
    the loop, the teardown. *)
Definition run_main_loop (sys_platform : string) (py_wndproc_ptr : Z)
  (ienv : InstallEnv) (messages : list (string * bool)) (uenv : UninstallEnv)
  : M unit :=
  bind (install_session_notifications sys_platform py_wndproc_ptr ienv)
    (fun _ =>
       bind (modify_self (gui_loop messages))
         (fun _ => uninstall_session_notifications sys_platform uenv)).

(** The notifications sent so far. *)
Definition notified (s : BioDaemon) : list Notification :=
  match icon s with
  | Some t => tray_notified t
  | None => []
  end.

(** The cached state is the state of the score, and the tray, when there is
    one, shows its image. *)
Definition tray_shows_state (s : BioDaemon) : Prop :=
  match icon s with
  | Some t => tray_image t = state s
  | None => True
  end.

Definition display_coherent (s : BioDaemon) : Prop :=
  state s = get_current_state s /\ tray_shows_state s.

(** A lock start is recorded only while locked. *)
Definition lock_start_only_when_locked (s : BioDaemon) : Prop :=
  is_locked s = false -> lock_start_time s = 0%Q.

(** The hook attributes and the run flag of two instances agree. *)
Definition same_hook (s s' : BioDaemon) : Prop :=
  _session_events s' = _session_events s /\ _wndproc s' = _wndproc s /\
  _orig_wndproc s' = _orig_wndproc s /\ _hwnd s' = _hwnd s.

(** A probe on which the desktop calls return, with the name given. *)
Definition probe_desktop_named (name : string) : ProbeEnv :=
  {| OpenInputDesktop := Ret 3;
     GetUserObjectInformationW := Ret (Some name);
     CloseDesktop := Ret tt;
     GetLastInputInfo := Raised;
     get_tick := Raised |}.

(** A probe that raises, with a last input at [dwTime] and a clock at
    [tick]. *)
Definition probe_idle (dwTime tick : Z) : ProbeEnv :=
  {| OpenInputDesktop := Raised;
     GetUserObjectInformationW := Raised;
     CloseDesktop := Raised;
     GetLastInputInfo := Ret (Some dwTime);
     get_tick := Ret tick |}.

(** A host on which the window id cannot be obtained. *)
Definition install_no_window : InstallEnv :=
  {| winfo_id := Raised; get_wndproc_fault := NoFault;
     swap_fault := NoFault; register_fault := NoFault;
     rollback_fault := NoFault |}.

(** ** Frame lemmas: what the icon and clamp helpers leave alone *)

Lemma safe_notify_fatigue n s : fatigue (safe_notify n s) = fatigue s.
Proof. unfold safe_notify. destruct (icon s); reflexivity. Qed.

Lemma safe_notify_session n s :
  is_locked (safe_notify n s) = is_locked s /\
  lock_start_time (safe_notify n s) = lock_start_time s /\
  running (safe_notify n s) = running s /\
  state (safe_notify n s) = state s.
Proof. unfold safe_notify. destruct (icon s); repeat split. Qed.

Lemma safe_notify_hook n s :
  _session_events (safe_notify n s) = _session_events s /\
  _wndproc (safe_notify n s) = _wndproc s /\
  _orig_wndproc (safe_notify n s) = _orig_wndproc s /\
  _hwnd (safe_notify n s) = _hwnd s.
Proof. unfold safe_notify. destruct (icon s); repeat split. Qed.

Lemma update_icon_fatigue s : fatigue (update_icon s) = fatigue s.
Proof.
  unfold update_icon.
  destruct (String.eqb _ (state s)); [reflexivity|].
  cbn. destruct (icon s); [|reflexivity].
  destruct (String.eqb _ "tombstone"); reflexivity.
Qed.

Lemma update_icon_session s :
  is_locked (update_icon s) = is_locked s /\
  lock_start_time (update_icon s) = lock_start_time s /\
  running (update_icon s) = running s.
Proof.
  unfold update_icon.
  destruct (String.eqb _ (state s)); [repeat split|].
  cbn. destruct (icon s); [|repeat split].
  destruct (String.eqb _ "tombstone"); [|repeat split].
  unfold safe_notify; cbn. repeat split.
Qed.

Lemma update_icon_hook s :
  _session_events (update_icon s) = _session_events s /\
  _wndproc (update_icon s) = _wndproc s /\
  _orig_wndproc (update_icon s) = _orig_wndproc s /\
  _hwnd (update_icon s) = _hwnd s.
Proof.
  unfold update_icon.
  destruct (String.eqb _ (state s)); [repeat split|].
  cbn. destruct (icon s); [|repeat split].
  destruct (String.eqb _ "tombstone"); [|repeat split].
  unfold safe_notify; cbn. repeat split.
Qed.

Lemma clamp_fatigue_value s :
  fatigue (clamp_fatigue s) = Z.max 0 (Z.min (fatigue s) LIMIT_DEATH).
Proof. reflexivity. Qed.

Lemma clamp_fatigue_in_range s : fatigue_in_range (clamp_fatigue s).
Proof. unfold fatigue_in_range, clamp_fatigue, LIMIT_DEATH. cbn. lia. Qed.

Lemma clamp_fatigue_id s : fatigue_in_range s -> clamp_fatigue s = s.
Proof.
  unfold fatigue_in_range, clamp_fatigue, LIMIT_DEATH. intros H.
  replace (Z.max 0 (Z.min (fatigue s) 80)) with (fatigue s) by lia.
  destruct s; reflexivity.
Qed.

Lemma accrue_fatigue s :
  fatigue (accrue s) =
  if fatigue s <? LIMIT_DEATH then fatigue s + 1 else fatigue s.
Proof. unfold accrue. destruct (fatigue s <? LIMIT_DEATH); reflexivity. Qed.

Lemma accrue_session s :
  is_locked (accrue s) = is_locked s /\
  lock_start_time (accrue s) = lock_start_time s /\
  running (accrue s) = running s.
Proof. unfold accrue. destruct (fatigue s <? LIMIT_DEATH); repeat split. Qed.

(** ** The healing arithmetic *)

(** The score that [handle_unlock_heal] leaves, in one formula. *)
Lemma handle_unlock_heal_fatigue D q s :
  fatigue (handle_unlock_heal D q s) =
  Z.max 0 (Z.min
    (if fatigue s <? LIMIT_DEATH then
       match calculate_healing (minutes_away D q) with
       | FULL_RESET => 0
       | Amount heal => if 0 <? heal then Z.max 0 (fatigue s - heal)
                        else fatigue s
       end
     else fatigue s) LIMIT_DEATH).
Proof.
  unfold handle_unlock_heal.
  rewrite update_icon_fatigue, clamp_fatigue_value.
  destruct (fatigue s <? LIMIT_DEATH); [|reflexivity].
  destruct (calculate_healing _) as [heal|].
  - destruct (0 <? heal); [|reflexivity].
    now rewrite safe_notify_fatigue.
  - now rewrite safe_notify_fatigue.
Qed.

Lemma handle_unlock_heal_session D q s :
  is_locked (handle_unlock_heal D q s) = is_locked s /\
  lock_start_time (handle_unlock_heal D q s) = lock_start_time s /\
  running (handle_unlock_heal D q s) = running s.
Proof.
  unfold handle_unlock_heal.
  match goal with
  | |- context [update_icon ?x] =>
      destruct (update_icon_session x) as (-> & -> & ->)
  end.
  destruct (fatigue s <? LIMIT_DEATH); [|repeat split].
  destruct (calculate_healing _) as [heal|].
  - destruct (0 <? heal); [|repeat split].
    unfold safe_notify; cbn. destruct (icon s); repeat split.
  - unfold safe_notify; cbn. destruct (icon s); repeat split.
Qed.

(** [calculate_healing] by cases on the break length. *)
Lemma calculate_healing_cases d :
  (d < 2 -> calculate_healing d = Amount 0) /\
  (15 <= d -> calculate_healing d = FULL_RESET) /\
  (2 <= d < 5 -> calculate_healing d = Amount (2 * d)) /\
  (5 <= d < 15 -> calculate_healing d = Amount (4 * d)).
Proof.
  unfold calculate_healing, MIN_BREAK_TIME, FULL_RESET_TIME.
  repeat split; intros H.
  - destruct (Z.ltb_spec d 2); [reflexivity|lia].
  - destruct (Z.ltb_spec d 2); [lia|].
    destruct (Z.leb_spec 15 d); [reflexivity|lia].
  - destruct (Z.ltb_spec d 2); [lia|].
    destruct (Z.leb_spec 15 d); [lia|].
    destruct (Z.ltb_spec d 5); [f_equal; lia|lia].
  - destruct (Z.ltb_spec d 2); [lia|].
    destruct (Z.leb_spec 15 d); [lia|].
    destruct (Z.ltb_spec d 5); [lia|f_equal; lia].
Qed.

(** Every whole number of minutes is the length of some break: the
    conversion of line 129 loses none. *)
Lemma minutes_away_onto D (d : Z) :
  minutes_away D (inject_Z (d * (if D then 1 else 60))) = d.
Proof.
  unfold minutes_away, py_int.
  destruct D; cbn.
  - rewrite !Z.mul_1_r. now rewrite Z.quot_1_r.
  - rewrite Z.mul_1_r. rewrite Z.quot_mul; [reflexivity|lia].
Qed.

(** ** The fatigue state *)

(** C6.  The state name is a function of the score alone, it is [round]
    exactly below 45, [slouch] exactly on 45..59, [melt] exactly on 60..69,
    [flat] exactly on 70..79 and [tombstone] exactly from 80 on, and it
    never steps back as the score grows. *)
Theorem get_current_state_step_function (s s' : BioDaemon) :
  (get_current_state s = "round"%string <-> fatigue s < 45) /\
  (get_current_state s = "slouch"%string <-> 45 <= fatigue s < 60) /\
  (get_current_state s = "melt"%string <-> 60 <= fatigue s < 70) /\
  (get_current_state s = "flat"%string <-> 70 <= fatigue s < 80) /\
  (get_current_state s = "tombstone"%string <-> 80 <= fatigue s) /\
  (fatigue s = fatigue s' -> get_current_state s = get_current_state s') /\
  (fatigue s <= fatigue s' ->
   state_rank (get_current_state s) <= state_rank (get_current_state s')).
Proof.
  assert (Hcases : forall x : BioDaemon,
    fatigue x < 45 /\ get_current_state x = "round"%string \/
    45 <= fatigue x < 60 /\ get_current_state x = "slouch"%string \/
    60 <= fatigue x < 70 /\ get_current_state x = "melt"%string \/
    70 <= fatigue x < 80 /\ get_current_state x = "flat"%string \/
    80 <= fatigue x /\ get_current_state x = "tombstone"%string).
  { intros x.
    unfold get_current_state, LIMIT_ROUND, LIMIT_SLOUCH, LIMIT_MELT,
      LIMIT_FLAT.
    destruct (Z.ltb_spec (fatigue x) 45); [now left|].
    destruct (Z.ltb_spec (fatigue x) 60); [right; left; split; [lia|easy]|].
    destruct (Z.ltb_spec (fatigue x) 70);
      [right; right; left; split; [lia|easy]|].
    destruct (Z.ltb_spec (fatigue x) 80);
      [right; right; right; left; split; [lia|easy]|].
    right; right; right; right. split; [lia|easy]. }
  destruct (Hcases s) as [(R & ->) | [(R & ->) | [(R & ->) | [(R & ->) |
    (R & ->)]]]];
    (repeat split; try discriminate; try lia;
     try (intros E;
          destruct (Hcases s') as [(R' & ->) | [(R' & ->) | [(R' & ->) |
            [(R' & ->) | (R' & ->)]]]]; solve [reflexivity | lia
                                              | cbn; lia])).
Qed.

(** C6, at a score of 50 set against a score of 60. *)
Lemma get_current_state_step_function_witness :
  get_current_state (at_score 50) = "slouch"%string /\
  state_rank (get_current_state (at_score 50))
    <= state_rank (get_current_state (at_score 60)).
Proof.
  destruct (get_current_state_step_function (at_score 50) (at_score 60))
    as (_ & Hs & _ & _ & _ & _ & Hm).
  split.
  - apply Hs. cbn. lia.
  - apply Hm. cbn. lia.
Defined.

(** ** Healing on unlock *)

(** C1 as stated fails at the cap: a capped score is not reset by a break
    of 20 minutes (1200 seconds at the normal timescale). *)
Lemma heal_full_reset_at_cap_counterexample :
  15 <= minutes_away false (1200 # 1) /\
  fatigue (handle_unlock_heal false (1200 # 1) (at_score 80)) = 80 /\
  fatigue (handle_unlock_heal false (1200 # 1) (at_score 80)) <> 0.
Proof. by_evaluation. Qed.

(** C1, amended.  From a score below the cap, a break of [d] whole minutes
    leaves the score alone when [d < 2], sets it to 0 when [15 <= d], takes
    off [2 * d] when [2 <= d < 5] and [4 * d] when [5 <= d < 15], the result
    never going below 0. *)
Theorem heal_piecewise_below_cap (D : bool) (q : Q) (s : BioDaemon) :
  0 <= fatigue s < LIMIT_DEATH ->
  let d := minutes_away D q in
  let after := fatigue (handle_unlock_heal D q s) in
  (d < 2 -> after = fatigue s) /\
  (15 <= d -> after = 0) /\
  (2 <= d < 5 -> after = Z.max 0 (fatigue s - 2 * d)) /\
  (5 <= d < 15 -> after = Z.max 0 (fatigue s - 4 * d)) /\
  0 <= after.
Proof.
  intros Hs d after. subst after.
  rewrite handle_unlock_heal_fatigue. fold d.
  destruct (calculate_healing_cases d) as (H0 & H1 & H2 & H3).
  unfold LIMIT_DEATH in *.
  destruct (Z.ltb_spec (fatigue s) 80); [|lia].
  repeat split; try lia; intros Hd.
  - rewrite (H0 Hd). cbn. lia.
  - rewrite (H1 Hd). lia.
  - rewrite (H2 Hd). destruct (Z.ltb_spec 0 (2 * d)); lia.
  - rewrite (H3 Hd). destruct (Z.ltb_spec 0 (4 * d)); lia.
Qed.

(** C1 amended, at the scenario of the design: score 50, locked for three
    minutes. *)
Lemma heal_piecewise_below_cap_witness :
  fatigue (handle_unlock_heal false (180 # 1) (at_score 50)) = 44.
Proof.
  assert (Hs : 0 <= fatigue (at_score 50) < LIMIT_DEATH)
    by by_evaluation.
  destruct (heal_piecewise_below_cap false (180 # 1) (at_score 50) Hs)
    as (_ & _ & H & _).
  rewrite H; [reflexivity | by_evaluation].
Defined.

(** C10.  An unlock never raises the score, whatever the length of the
    break, its sign included. *)
Theorem handle_unlock_heal_never_increases (D : bool) (q : Q)
  (s : BioDaemon) :
  fatigue_in_range s ->
  fatigue (handle_unlock_heal D q s) <= fatigue s.
Proof.
  unfold fatigue_in_range, LIMIT_DEATH. intros Hs.
  rewrite handle_unlock_heal_fatigue. unfold LIMIT_DEATH.
  destruct (Z.ltb_spec (fatigue s) 80); [|lia].
  destruct (calculate_healing _) as [heal|]; [|lia].
  destruct (Z.ltb_spec 0 heal); lia.
Qed.

(** C10, at a lock start that lies after the unlock (minus 300 seconds). *)
Lemma handle_unlock_heal_never_increases_witness :
  fatigue (handle_unlock_heal false (-300 # 1) (at_score 30)) <= 30.
Proof.
  apply (handle_unlock_heal_never_increases false (-300 # 1) (at_score 30)).
  by_evaluation.
Defined.

(** ** The score range *)

Lemma handle_unlock_heal_in_range D q s :
  fatigue_in_range (handle_unlock_heal D q s).
Proof.
  unfold fatigue_in_range. rewrite handle_unlock_heal_fatigue.
  unfold LIMIT_DEATH. lia.
Qed.

Lemma accrue_in_range s : fatigue_in_range s -> fatigue_in_range (accrue s).
Proof.
  unfold fatigue_in_range. rewrite accrue_fatigue. unfold LIMIT_DEATH.
  destruct (Z.ltb_spec (fatigue s) 80); lia.
Qed.

Lemma update_icon_in_range s :
  fatigue_in_range s -> fatigue_in_range (update_icon s).
Proof. unfold fatigue_in_range. now rewrite update_icon_fatigue. Qed.

Lemma resurrect_fatigue s : fatigue (resurrect s) = 0.
Proof.
  unfold resurrect. rewrite update_icon_fatigue, clamp_fatigue_value.
  reflexivity.
Qed.

Lemma detect_transition_fatigue (fsub : Q -> Q -> Q) D now currently_locked s :
  fatigue (detect_transition D fsub now currently_locked s) = fatigue s \/
  currently_locked = false /\ is_locked s = true /\
  exists q, fatigue (detect_transition D fsub now currently_locked s)
            = fatigue (handle_unlock_heal D q s).
Proof.
  unfold detect_transition.
  destruct currently_locked.
  - left. destruct (is_locked s); reflexivity.
  - destruct (is_locked s) eqn:L; [right|left; reflexivity].
    repeat split. eexists.
    rewrite !handle_unlock_heal_fatigue. reflexivity.
Qed.

Lemma detect_transition_in_range (fsub : Q -> Q -> Q) D now currently_locked s :
  fatigue_in_range s ->
  fatigue_in_range (detect_transition D fsub now currently_locked s).
Proof.
  intros Hs. unfold fatigue_in_range.
  destruct (detect_transition_fatigue fsub D now currently_locked s)
    as [-> | (_ & _ & q & ->)]; [exact Hs|].
  apply handle_unlock_heal_in_range.
Qed.

Lemma run_timer_tick_in_range (fsub : Q -> Q -> Q) D P now env s s' :
  fatigue_in_range s -> run_timer_tick D P fsub now env s = Ret s' ->
  fatigue_in_range s'.
Proof.
  intros Hs. unfold run_timer_tick.
  destruct (_session_events s).
  - intros [= <-]. apply update_icon_in_range.
    destruct (is_locked s); cbn; [exact Hs | now apply accrue_in_range].
  - destruct (check_lock_state_fallback D P env) as [b|]; [|discriminate].
    intros [= <-]. apply update_icon_in_range, clamp_fatigue_in_range.
Qed.

Lemma py_wndproc_in_range (fsub : Q -> Q -> Q) D now msg wParam s :
  fatigue_in_range s -> fatigue_in_range (fst (py_wndproc D fsub now msg wParam s)).
Proof.
  intros Hs. unfold py_wndproc. cbn [fst].
  destruct (msg =? WM_WTSSESSION_CHANGE); [|exact Hs].
  destruct (wParam =? WTS_SESSION_LOCK); [exact Hs|].
  destruct (wParam =? WTS_SESSION_UNLOCK); [|exact Hs].
  apply handle_unlock_heal_in_range.
Qed.

Lemma step_in_range (fsub : Q -> Q -> Q) D P e s :
  fatigue_in_range s -> fatigue_in_range (step D P fsub e s).
Proof.
  intros Hs. destruct e as [now env | now msg wParam | msg ok]; cbn [step].
  - destruct (run_timer_tick D P fsub now env s) eqn:E; [|exact Hs].
    eapply run_timer_tick_in_range; eauto.
  - now apply py_wndproc_in_range.
  - unfold run_main_loop_message.
    destruct (String.eqb msg "SHOW_RESURRECT_DIALOG").
    + destruct ok; [|exact Hs].
      unfold fatigue_in_range. rewrite resurrect_fatigue.
      unfold LIMIT_DEATH. lia.
    + destruct (String.eqb msg "EXIT"); exact Hs.
Qed.

Lemma run_in_range (fsub : Q -> Q -> Q) D P events :
  forall s, fatigue_in_range s -> fatigue_in_range (run D P fsub events s).
Proof.
  unfold run. induction events as [|e events IH]; intros s Hs; cbn.
  - exact Hs.
  - apply IH. now apply step_in_range.
Qed.

(** The hook methods write no attribute of the fatigue engine. *)
Lemma install_keeps_fatigue P ptr env s w :
  fatigue (fst (snd (install_session_notifications P ptr env (s, w))))
  = fatigue s.
Proof.
  destruct env as [wid gf sf rf bf].
  unfold install_session_notifications.
  destruct (negb (String.eqb P "win32")); [reflexivity|].
  run_method.
  destruct wid as [hwnd|]; cbn; [|reflexivity].
  destruct gf; cbn; try reflexivity;
    destruct sf; cbn; try reflexivity;
    destruct (truthy (c_void_p_result (window_proc w))); cbn;
    try reflexivity;
    destruct rf; cbn; try reflexivity;
    destruct bf; reflexivity.
Qed.

Lemma uninstall_keeps_fatigue P env s w :
  fatigue (fst (snd (uninstall_session_notifications P env (s, w))))
  = fatigue s.
Proof.
  destruct env as [uf rf].
  unfold uninstall_session_notifications.
  destruct (negb (String.eqb P "win32")); [reflexivity|].
  run_method.
  destruct (truthy (_hwnd s)), (_session_events s), (truthy (_orig_wndproc s)),
    (_wndproc s), uf, rf; reflexivity.
Qed.

(** C3.  The score starts at 0; every unlock-heal and every manual reset
    ends in the range 0..80; every tick of the timer, in either mode, and
    every other write keeps a score in the range there; installing and
    removing the hook do not touch the score; so the range holds along
    every run from the start. *)
Theorem fatigue_range_invariant (fsub : Q -> Q -> Q) (D : bool) (P : string) :
  fatigue init = 0 /\
  (forall q s, fatigue_in_range (handle_unlock_heal D q s)) /\
  (forall s, fatigue_in_range (resurrect s)) /\
  (forall now env s s',
      fatigue_in_range s -> run_timer_tick D P fsub now env s = Ret s' ->
      fatigue_in_range s') /\
  (forall e s, fatigue_in_range s -> fatigue_in_range (step D P fsub e s)) /\
  (forall ptr ienv uenv s w,
     fatigue (fst (snd (install_session_notifications P ptr ienv (s, w))))
     = fatigue s /\
     fatigue (fst (snd (uninstall_session_notifications P uenv (s, w))))
     = fatigue s) /\
  (forall events, fatigue_in_range (run D P fsub events init)).
Proof.
  split; [reflexivity|].
  split; [intros; apply handle_unlock_heal_in_range|].
  split.
  { intros s. unfold fatigue_in_range. rewrite resurrect_fatigue.
    unfold LIMIT_DEATH. lia. }
  split; [intros; eapply run_timer_tick_in_range; eauto|].
  split; [intros; now apply step_in_range|].
  split.
  { intros. split;
      [apply install_keeps_fatigue | apply uninstall_keeps_fatigue]. }
  intros events. apply run_in_range.
  unfold fatigue_in_range, LIMIT_DEATH. cbn. lia.
Qed.

(** C3, at a polling tick on the interactive desktop from a score of 80. *)
Lemma fatigue_range_invariant_witness :
  fatigue_in_range (step false "win32" whole_seconds_sub
      (Tick 0 probe_default) (at_score 80)).
Proof.
  apply (fatigue_range_invariant whole_seconds_sub false "win32").
  unfold fatigue_in_range. by_evaluation.
Defined.

(** ** The death cap *)

Lemma handle_unlock_heal_at_cap D q s :
  fatigue s = LIMIT_DEATH -> handle_unlock_heal D q s = update_icon s.
Proof.
  intros Hs. unfold handle_unlock_heal.
  rewrite Hs, Z.ltb_irrefl.
  rewrite clamp_fatigue_id; [reflexivity|].
  unfold fatigue_in_range. rewrite Hs. unfold LIMIT_DEATH. lia.
Qed.

Lemma accrue_at_cap s : fatigue s = LIMIT_DEATH -> accrue s = s.
Proof. intros Hs. unfold accrue. now rewrite Hs, Z.ltb_irrefl. Qed.

Lemma detect_transition_at_cap (fsub : Q -> Q -> Q) D now currently_locked s :
  fatigue s = LIMIT_DEATH ->
  fatigue (detect_transition D fsub now currently_locked s) = LIMIT_DEATH.
Proof.
  intros Hs.
  destruct (detect_transition_fatigue fsub D now currently_locked s)
    as [-> | (_ & _ & q & ->)]; [exact Hs|].
  now rewrite handle_unlock_heal_at_cap, update_icon_fatigue.
Qed.

Lemma run_timer_tick_at_cap (fsub : Q -> Q -> Q) D P now env s s' :
  fatigue s = LIMIT_DEATH -> run_timer_tick D P fsub now env s = Ret s' ->
  fatigue s' = LIMIT_DEATH.
Proof.
  intros Hs. unfold run_timer_tick.
  destruct (_session_events s).
  - intros [= <-]. rewrite update_icon_fatigue.
    destruct (is_locked s); cbn; [exact Hs | now rewrite accrue_at_cap].
  - destruct (check_lock_state_fallback D P env) as [b|]; [|discriminate].
    intros [= <-]. rewrite update_icon_fatigue, clamp_fatigue_value.
    pose proof (detect_transition_at_cap fsub D now b s Hs) as Hd.
    destruct b.
    + rewrite Hd. reflexivity.
    + rewrite accrue_at_cap, Hd; [reflexivity | exact Hd].
Qed.

(** C2.  Healing changes a score in range only if it was below the cap.
    At the cap an unlock, whatever the break, does no more than refresh the
    icon and leaves the score at 80; so does every tick and every session
    message; the confirmed manual reset alone brings the score to 0. *)
Theorem capped_score_only_reset_manually (fsub : Q -> Q -> Q)
  (D : bool) (P : string) :
  (forall q s, fatigue_in_range s ->
     fatigue (handle_unlock_heal D q s) <> fatigue s ->
     fatigue s < LIMIT_DEATH) /\
  (forall s, fatigue s = LIMIT_DEATH ->
     (forall q, handle_unlock_heal D q s = update_icon s) /\
     (forall q, fatigue (handle_unlock_heal D q s) = LIMIT_DEATH) /\
     (forall e, fatigue (step D P fsub e s) = LIMIT_DEATH \/
                e = GuiMessage "SHOW_RESURRECT_DIALOG" true /\
                fatigue (step D P fsub e s) = 0) /\
     fatigue (resurrect s) = 0).
Proof.
  split.
  { intros q s Hs Hne. unfold fatigue_in_range in Hs.
    destruct (Z.eq_dec (fatigue s) LIMIT_DEATH) as [E|]; [|lia].
    exfalso. apply Hne.
    now rewrite handle_unlock_heal_at_cap, update_icon_fatigue. }
  intros s Hs.
  split; [intros; now apply handle_unlock_heal_at_cap|].
  split.
  { intros q. now rewrite handle_unlock_heal_at_cap, update_icon_fatigue. }
  split; [|apply resurrect_fatigue].
  intros [now env | now msg wParam | msg ok]; cbn [step].
  - left. destruct (run_timer_tick D P fsub now env s) eqn:E; [|exact Hs].
    eapply run_timer_tick_at_cap; eauto.
  - left. unfold py_wndproc. cbn [fst].
    destruct (msg =? WM_WTSSESSION_CHANGE); [|exact Hs].
    destruct (wParam =? WTS_SESSION_LOCK); [exact Hs|].
    destruct (wParam =? WTS_SESSION_UNLOCK); [|exact Hs].
    rewrite handle_unlock_heal_at_cap, update_icon_fatigue; exact Hs.
  - unfold run_main_loop_message.
    destruct (String.eqb_spec msg "SHOW_RESURRECT_DIALOG") as [->|].
    + destruct ok; [right | left; exact Hs].
      split; [reflexivity | apply resurrect_fatigue].
    + left. destruct (String.eqb msg "EXIT"); exact Hs.
Qed.

(** C2, at the scenario of the design: score 80, locked for 20 minutes. *)
Lemma capped_score_only_reset_manually_witness :
  fatigue (handle_unlock_heal false (1200 # 1) (at_score 80)) = LIMIT_DEATH.
Proof.
  apply (capped_score_only_reset_manually whole_seconds_sub false "win32").
  reflexivity.
Defined.

(** ** Accrual on the ticks of the timer *)

Lemma accrue_hook s : _session_events (accrue s) = _session_events s.
Proof. unfold accrue. destruct (fatigue s <? LIMIT_DEATH); reflexivity. Qed.

Lemma run_timer_tick_event_driven (fsub : Q -> Q -> Q) D P now env s :
  _session_events s = true ->
  run_timer_tick D P fsub now env s
  = Ret (update_icon (if negb (is_locked s) then accrue s else s)).
Proof. intros E. unfold run_timer_tick. now rewrite E. Qed.

Lemma run_timer_tick_polling (fsub : Q -> Q -> Q)
  D P now env s currently_locked :
  _session_events s = false ->
  check_lock_state_fallback D P env = Ret currently_locked ->
  run_timer_tick D P fsub now env s
  = Ret (update_icon (clamp_fatigue
           (if currently_locked
            then detect_transition D fsub now currently_locked s
            else accrue (detect_transition D fsub now currently_locked s)))).
Proof. intros E C. unfold run_timer_tick. now rewrite E, C. Qed.

Lemma detect_transition_is_locked (fsub : Q -> Q -> Q)
  D now currently_locked s :
  is_locked (detect_transition D fsub now currently_locked s) = currently_locked.
Proof.
  unfold detect_transition.
  destruct currently_locked, (is_locked s) eqn:L; cbn [negb];
    try assumption; try reflexivity.
  match goal with
  | |- is_locked (handle_unlock_heal ?d ?q ?x) = _ =>
      now destruct (handle_unlock_heal_session d q x) as (-> & _)
  end.
Qed.

Lemma detect_transition_same (fsub : Q -> Q -> Q) D now currently_locked s :
  is_locked s = currently_locked ->
  detect_transition D fsub now currently_locked s = s.
Proof. intros <-. unfold detect_transition. now destruct (is_locked s). Qed.



(** What a polling tick does to the score, counted from the score that the
    handling of the transition leaves. *)
Lemma polling_tick_accrual (fsub : Q -> Q -> Q) D now currently_locked s :
  fatigue_in_range s ->
  let mid := detect_transition D fsub now currently_locked s in
  let s' := update_icon (clamp_fatigue
              (if currently_locked then mid else accrue mid)) in
  is_locked s' = currently_locked /\
  (fatigue s' = fatigue mid + 1 <->
   currently_locked = false /\ fatigue mid < LIMIT_DEATH) /\
  (fatigue s' = fatigue mid \/ fatigue s' = fatigue mid + 1).
Proof.
  intros Hs mid s'. subst s'.
  pose proof (detect_transition_in_range fsub D now currently_locked s Hs) as Hd.
  pose proof (detect_transition_is_locked fsub D now currently_locked s) as Hl.
  fold mid in Hd, Hl.
  split.
  { destruct (update_icon_session
                (clamp_fatigue (if currently_locked then mid else accrue mid)))
      as (-> & _).
    unfold clamp_fatigue. cbn [is_locked set_fatigue].
    destruct currently_locked; [exact Hl|].
    now destruct (accrue_session mid) as (-> & _). }
  rewrite update_icon_fatigue.
  destruct currently_locked.
  - rewrite clamp_fatigue_id by exact Hd.
    split; [|now left]. split; [lia | intros [? _]; discriminate].
  - rewrite clamp_fatigue_id by now apply accrue_in_range.
    rewrite accrue_fatigue.
    destruct (Z.ltb_spec (fatigue mid) LIMIT_DEATH); split; try lia; tauto.
Qed.




(** ** Transitions seen by polling *)

(** C9 as stated fails on the tick that detects the unlock: the session was
    locked when the tick began (since second 10, probed at second 40), and
    the tick still adds a minute of fatigue, 10 becoming 11. *)
Lemma accrual_on_unlock_tick_counterexample :
  is_locked (locked_since (10 # 1) (at_score 10)) = true /\
  fatigue (locked_since (10 # 1) (at_score 10)) = 10 /\
  exists s',
    run_timer_tick false "win32" whole_seconds_sub (40 # 1) probe_default
      (locked_since (10 # 1) (at_score 10)) = Ret s' /\
    is_locked s' = false /\ fatigue s' = 11.
Proof.
  split; [reflexivity|]. split; [reflexivity|].
  eexists. split; [vm_compute; reflexivity|]. split; reflexivity.
Qed.

(** C9, amended.  In polling mode, a tick whose probe finds the session
    unlocked while a lock is recorded heals with the difference, as floats
    subtract, between the time of the tick and the recorded lock start (with
    0 when none is recorded), clears the lock start and marks the session
    unlocked; the transition is handled once, a later unlocked probe finding
    nothing to heal.  Accrual happens only on a tick whose probe finds the
    session unlocked, the tick that detects the unlock included, where it
    follows the heal: counted from the score that the handling of the
    transition leaves, the tick adds 1 exactly when the probe finds the
    session unlocked and that score is below the cap, and a tick whose probe
    finds the session locked leaves the score alone. *)
Theorem polling_tick_transitions (fsub : Q -> Q -> Q)
  (D : bool) (P : string) (now : Q)
  (env : ProbeEnv) (s : BioDaemon) :
  fatigue_in_range s ->
  _session_events s = false ->
  (is_locked s = true ->
   check_lock_state_fallback D P env = Ret false ->
   let duration :=
     if Qeq_bool (lock_start_time s) 0 then 0%Q
     else fsub now (lock_start_time s) in
   let healed :=
     handle_unlock_heal D duration
       (set_lock_start_time 0%Q (set_is_locked false s)) in
   exists s',
     run_timer_tick D P fsub now env s = Ret s' /\
     is_locked s' = false /\ lock_start_time s' = 0%Q /\
     fatigue s' = Z.min LIMIT_DEATH (fatigue healed + 1) /\
     forall now', detect_transition D fsub now' false s' = s') /\
  (forall currently_locked,
     check_lock_state_fallback D P env = Ret currently_locked ->
     exists s',
       run_timer_tick D P fsub now env s = Ret s' /\
       is_locked s' = currently_locked /\
       let base := fatigue (detect_transition D fsub now currently_locked s) in
       (fatigue s' = base + 1 <->
        currently_locked = false /\ base < LIMIT_DEATH) /\
       (currently_locked = true -> fatigue s' = fatigue s)).
Proof.
  intros Hs E. split.
  - intros L C duration healed.
    eexists. split; [exact (run_timer_tick_polling fsub D P now env s false E C)|].
    assert (Hmid : detect_transition D fsub now false s = healed).
    { unfold detect_transition. rewrite L. reflexivity. }
    rewrite Hmid.
    assert (Hl : is_locked
                   (update_icon (clamp_fatigue (accrue healed))) = false).
    { destruct (update_icon_session (clamp_fatigue (accrue healed)))
        as (-> & _).
      unfold clamp_fatigue. cbn [is_locked set_fatigue].
      destruct (accrue_session healed) as (-> & _).
      subst healed.
      match goal with
      | |- is_locked (handle_unlock_heal ?d ?q ?x) = _ =>
          now destruct (handle_unlock_heal_session d q x) as (-> & _)
      end. }
    split; [exact Hl|]. split; [|split].
    + destruct (update_icon_session (clamp_fatigue (accrue healed)))
        as (_ & -> & _).
      unfold clamp_fatigue. cbn [lock_start_time set_fatigue].
      destruct (accrue_session healed) as (_ & -> & _).
      subst healed.
      match goal with
      | |- lock_start_time (handle_unlock_heal ?d ?q ?x) = _ =>
          now destruct (handle_unlock_heal_session d q x) as (_ & -> & _)
      end.
    + pose proof (handle_unlock_heal_in_range D duration
                    (set_lock_start_time 0%Q (set_is_locked false s))) as Hh.
      fold healed in Hh.
      rewrite update_icon_fatigue, clamp_fatigue_id
        by now apply accrue_in_range.
      rewrite accrue_fatigue.
      unfold fatigue_in_range, LIMIT_DEATH in *.
      destruct (Z.ltb_spec (fatigue healed) 80); lia.
    + intros now'. now apply detect_transition_same.
  - intros b C.
    eexists. split; [exact (run_timer_tick_polling fsub D P now env s b E C)|].
    destruct (polling_tick_accrual fsub D now b s Hs) as (Hl & Hiff & Hor).
    split; [exact Hl|]. cbn zeta. split; [exact Hiff|].
    intros ->.
    assert (Hb : fatigue (detect_transition D fsub now true s) = fatigue s).
    { unfold detect_transition. destruct (is_locked s); reflexivity. }
    destruct Hor as [Hor|Hor]; [congruence|].
    apply Hiff in Hor. destruct Hor; discriminate.
Qed.

(** C9 amended, at the scenario of the design under polling: score 50,
    locked at second 60, found unlocked at second 240; the three minutes
    heal 6 and the tick adds 1. *)
Lemma polling_tick_transitions_witness :
  exists s',
    run_timer_tick false "win32" whole_seconds_sub (240 # 1) probe_default
      (locked_since (60 # 1) (at_score 50)) = Ret s' /\
    is_locked s' = false /\ lock_start_time s' = 0%Q /\ fatigue s' = 45.
Proof.
  assert (Hs : fatigue_in_range (locked_since (60 # 1) (at_score 50)))
    by (unfold fatigue_in_range; by_evaluation).
  destruct (polling_tick_transitions whole_seconds_sub
      false "win32" (240 # 1) probe_default
              (locked_since (60 # 1) (at_score 50)) Hs eq_refl)
    as (Hunlock & _).
  destruct (Hunlock eq_refl eq_refl) as (s' & T & L & B & F & _).
  exists s'. split; [exact T|]. split; [exact L|]. split; [exact B|].
  rewrite F. reflexivity.
Defined.

(** ** The lock probe under failing native calls *)

Lemma polling_tick_is_locked (fsub : Q -> Q -> Q)
  D P now env s currently_locked :
  _session_events s = false ->
  check_lock_state_fallback D P env = Ret currently_locked ->
  exists s',
    run_timer_tick D P fsub now env s = Ret s' /\
    is_locked s' = currently_locked /\
    (is_locked s = currently_locked ->
     lock_start_time s' = lock_start_time s) /\
    (is_locked s = false -> currently_locked = true ->
     lock_start_time s' = now).
Proof.
  intros E C.
  eexists. split; [exact (run_timer_tick_polling fsub D P now env s _ E C)|].
  set (mid := detect_transition D fsub now currently_locked s).
  assert (Hl : is_locked mid = currently_locked)
    by apply detect_transition_is_locked.
  destruct (update_icon_session
              (clamp_fatigue (if currently_locked then mid else accrue mid)))
    as (-> & -> & _).
  unfold clamp_fatigue. cbn [is_locked lock_start_time set_fatigue].
  assert (Hfr : is_locked (if currently_locked then mid else accrue mid)
                = is_locked mid /\
                lock_start_time (if currently_locked then mid else accrue mid)
                = lock_start_time mid).
  { destruct currently_locked; [split; reflexivity|].
    destruct (accrue_session mid) as (-> & -> & _). split; reflexivity. }
  destruct Hfr as (-> & ->).
  split; [exact Hl|]. split.
  - intros Hsame. subst mid. now rewrite detect_transition_same.
  - intros L ->. subst mid. unfold detect_transition. rewrite L. reflexivity.
Qed.

(** The idle-time heuristic on a last-input read that returns 0. *)
Lemma idle_time_heuristic_read_fails D env :
  GetLastInputInfo env = Ret None -> idle_time_heuristic D env = Ret false.
Proof. intros H. unfold idle_time_heuristic. now rewrite H. Qed.

Lemma check_lock_state_fallback_raising D env :
  desktop_probe_raises env ->
  check_lock_state_fallback D "win32" env = idle_time_heuristic D env.
Proof.
  unfold check_lock_state_fallback. cbn [String.eqb negb].
  intros [H | (h & H & Hh & [H' | (ok & H' & H'')])]; rewrite H.
  - reflexivity.
  - apply Z.eqb_neq in Hh. now rewrite Hh, H'.
  - apply Z.eqb_neq in Hh. now rewrite Hh, H', H''.
Qed.

(** C5 as stated fails on the desktop probe: a desktop that cannot be
    opened, like a name that cannot be read, makes the probe answer locked,
    and the tick of an unlocked session records a lock. *)
Lemma failed_desktop_probe_counterexample :
  check_lock_state_fallback false "win32" probe_no_desktop = Ret true /\
  check_lock_state_fallback false "win32" probe_name_unreadable = Ret true /\
  is_locked init = false /\
  exists s',
    run_timer_tick false "win32" whole_seconds_sub
        (40 # 1) probe_no_desktop init = Ret s' /\
    is_locked s' = true /\ lock_start_time s' = (40 # 1).
Proof.
  split; [reflexivity|]. split; [reflexivity|]. split; [reflexivity|].
  eexists. split; [vm_compute; reflexivity|]. split; reflexivity.
Qed.

(** C5, amended.  In the polling probe a desktop call that fails through
    its return value (no input desktop, or no readable name) answers locked,
    and the tick of an unlocked session then records the lock at that tick.
    When a desktop call raises, the probe falls back to the idle time, and a
    last-input read that fails there answers unlocked without raising: the
    tick returns, ends unlocked, and records no lock on a session that was
    unlocked.  Off Windows the probe always answers unlocked. *)
Theorem failed_probe_semantics (fsub : Q -> Q -> Q)
  (D : bool) (env : ProbeEnv) :
  (OpenInputDesktop env = Ret 0 ->
   check_lock_state_fallback D "win32" env = Ret true) /\
  (forall hDesk,
     OpenInputDesktop env = Ret hDesk -> hDesk <> 0 ->
     GetUserObjectInformationW env = Ret None ->
     CloseDesktop env = Ret tt ->
     check_lock_state_fallback D "win32" env = Ret true) /\
  (check_lock_state_fallback D "win32" env = Ret true ->
   forall now s,
     _session_events s = false -> is_locked s = false ->
     exists s',
       run_timer_tick D "win32" fsub now env s = Ret s' /\
       is_locked s' = true /\ lock_start_time s' = now) /\
  (desktop_probe_raises env -> GetLastInputInfo env = Ret None ->
   check_lock_state_fallback D "win32" env = Ret false /\
   forall now s,
     _session_events s = false ->
     exists s',
       run_timer_tick D "win32" fsub now env s = Ret s' /\
       is_locked s' = false /\
       (is_locked s = false -> lock_start_time s' = lock_start_time s)) /\
  (forall P, P <> "win32"%string ->
     check_lock_state_fallback D P env = Ret false).
Proof.
  split; [|split; [|split; [|split]]].
  - intros H. unfold check_lock_state_fallback. cbn [String.eqb negb].
    now rewrite H.
  - intros h H Hh H' H''. unfold check_lock_state_fallback.
    cbn [String.eqb negb]. apply Z.eqb_neq in Hh.
    now rewrite H, Hh, H', H''.
  - intros C now s E L.
    destruct (polling_tick_is_locked fsub D "win32" now env s true E C)
      as (s' & T & L' & _ & Hnow).
    exists s'. auto.
  - intros Hr Hi.
    assert (C : check_lock_state_fallback D "win32" env = Ret false).
    { rewrite check_lock_state_fallback_raising by exact Hr.
      now apply idle_time_heuristic_read_fails. }
    split; [exact C|].
    intros now s E.
    destruct (polling_tick_is_locked fsub D "win32" now env s false E C)
      as (s' & T & L' & Hsame & _).
    exists s'. auto.
  - intros P HP. unfold check_lock_state_fallback.
    apply String.eqb_neq in HP. now rewrite HP.
Qed.

(** C5 amended, at a probe that raises with an idle-time read that fails,
    on the instance at start. *)
Lemma failed_probe_semantics_witness :
  check_lock_state_fallback false "win32" probe_raises_idle_fails
  = Ret false /\
  exists s',
    run_timer_tick false "win32" whole_seconds_sub
        (40 # 1) probe_raises_idle_fails init
    = Ret s' /\
    is_locked s' = false /\ lock_start_time s' = 0%Q.
Proof.
  destruct (failed_probe_semantics whole_seconds_sub
      false probe_raises_idle_fails)
    as (_ & _ & _ & H & _).
  destruct H as (C & T); [left; reflexivity | reflexivity |].
  split; [exact C|].
  destruct (T (40 # 1) init eq_refl) as (s' & T' & L & S).
  exists s'. split; [exact T'|]. split; [exact L|].
  now rewrite S.
Defined.

(** ** Installing and removing the session hook *)

Lemma c_void_p_result_nonnull p :
  p <> 0 -> c_void_p_result p = Some p /\ truthy (Some p) = true.
Proof.
  intros Hp. unfold c_void_p_result, truthy.
  apply Z.eqb_neq in Hp. now rewrite Hp.
Qed.

(** An installation whose swap fails. *)
Lemma install_swap_fails ptr env s w hwnd :
  winfo_id env = Ret hwnd -> swap_fault env = Fails ->
  get_wndproc_fault env <> Raises ->
  exists s',
    install_session_notifications "win32" ptr env (s, w)
    = (Ret tt,
       (s', {| window_proc := window_proc w;
               session_registered := session_registered w;
               native_calls := native_calls w ++
                 [GetWindowLongPtrW hwnd; SetWindowLongPtrW hwnd ptr] |})) /\
    _session_events s' = false /\ _wndproc s' = None /\
    _orig_wndproc s' = None /\ _hwnd s' = Some hwnd.
Proof.
  destruct env as [wid gf sf rf bf]. cbn. intros -> -> Hg.
  run_method.
  destruct gf; [| |congruence]; cbn; rewrite <- app_assoc; cbn;
    eexists; split; try reflexivity; cbn; auto.
Qed.

(** An installation whose swap works and whose registration fails. *)
Lemma install_register_fails ptr env s w hwnd :
  winfo_id env = Ret hwnd -> get_wndproc_fault env = NoFault ->
  swap_fault env = NoFault -> register_fault env = Fails ->
  rollback_fault env = NoFault -> window_proc w <> 0 ->
  exists s',
    install_session_notifications "win32" ptr env (s, w)
    = (Ret tt,
       (s', {| window_proc := window_proc w;
               session_registered := session_registered w;
               native_calls := native_calls w ++
                 [GetWindowLongPtrW hwnd; SetWindowLongPtrW hwnd ptr;
                  WTSRegisterSessionNotification hwnd;
                  SetWindowLongPtrW hwnd (window_proc w)] |})) /\
    _session_events s' = false /\ _wndproc s' = None /\
    _orig_wndproc s' = None /\ _hwnd s' = Some hwnd.
Proof.
  destruct env as [wid gf sf rf bf]. cbn. intros -> -> -> -> -> Hp.
  run_method.
  destruct (c_void_p_result_nonnull _ Hp) as (Hr & Ht).
  rewrite Hr. cbn. apply Z.eqb_neq in Hp. rewrite Hp. cbn.
  rewrite <- !app_assoc. cbn.
  eexists; split; try reflexivity; cbn; auto.
Qed.

(** An installation on which every call works. *)
Lemma install_succeeds ptr env s w hwnd :
  winfo_id env = Ret hwnd -> get_wndproc_fault env = NoFault ->
  swap_fault env = NoFault -> register_fault env = NoFault ->
  window_proc w <> 0 ->
  exists s',
    install_session_notifications "win32" ptr env (s, w)
    = (Ret tt,
       (s', {| window_proc := ptr;
               session_registered := true;
               native_calls := native_calls w ++
                 [GetWindowLongPtrW hwnd; SetWindowLongPtrW hwnd ptr;
                  WTSRegisterSessionNotification hwnd] |})) /\
    _session_events s' = true /\ _wndproc s' = Some ptr /\
    _orig_wndproc s' = Some (window_proc w) /\ _hwnd s' = Some hwnd.
Proof.
  destruct env as [wid gf sf rf bf]. cbn. intros -> -> -> -> Hp.
  run_method.
  destruct (c_void_p_result_nonnull _ Hp) as (Hr & Ht).
  rewrite Hr. cbn. apply Z.eqb_neq in Hp. rewrite Hp. cbn.
  rewrite <- !app_assoc. cbn.
  eexists; split; try reflexivity; cbn; auto.
Qed.

(** Teardown returns, whatever the platform, the instance and the host. *)
Lemma uninstall_never_raises P env sw :
  fst (uninstall_session_notifications P env sw) = Ret tt.
Proof.
  destruct sw as [s w]. destruct env as [uf rf].
  unfold uninstall_session_notifications.
  destruct (negb (String.eqb P "win32")); [reflexivity|].
  run_method.
  destruct (truthy (_hwnd s)), (_session_events s), (truthy (_orig_wndproc s)),
    (_wndproc s), uf, rf; reflexivity.
Qed.

(** On Windows teardown clears the four attributes of the hook. *)
Lemma uninstall_clears env sw :
  hook_cleared (fst (snd (uninstall_session_notifications "win32" env sw))).
Proof.
  destruct sw as [s w]. destruct env as [uf rf].
  run_method.
  destruct (truthy (_hwnd s)), (_session_events s), (truthy (_orig_wndproc s)),
    (_wndproc s), uf, rf; repeat split.
Qed.

(** With no hook stored, teardown calls nothing and changes nothing. *)
Lemma uninstall_nothing_installed P env s w :
  hook_cleared s ->
  uninstall_session_notifications P env (s, w) = (Ret tt, (s, w)).
Proof.
  intros (He & Hw & Ho & Hh).
  unfold uninstall_session_notifications.
  destruct (negb (String.eqb P "win32")); [reflexivity|].
  run_method. rewrite He, Hw, Ho, Hh. cbn.
  destruct s; cbn in *; subst; reflexivity.
Qed.

(** With no callback and no original procedure stored, as after a failed
    installation, teardown makes no native call. *)
Lemma uninstall_without_hook P env s w :
  _session_events s = false -> _orig_wndproc s = None ->
  snd (snd (uninstall_session_notifications P env (s, w))) = w.
Proof.
  intros He Ho.
  unfold uninstall_session_notifications.
  destruct (negb (String.eqb P "win32")); [reflexivity|].
  run_method. rewrite He, Ho. cbn.
  destruct (truthy (_hwnd s)); reflexivity.
Qed.

(** Teardown of an installed hook: the calls it makes and their order. *)
Lemma uninstall_installed env s w hwnd orig ptr :
  _session_events s = true -> _wndproc s = Some ptr ->
  _orig_wndproc s = Some orig -> _hwnd s = Some hwnd ->
  hwnd <> 0 -> orig <> 0 ->
  unregister_fault env <> Raises ->
  exists s' w',
    uninstall_session_notifications "win32" env (s, w) = (Ret tt, (s', w')) /\
    hook_cleared s' /\
    native_calls w' = native_calls w ++
      [WTSUnRegisterSessionNotification hwnd; SetWindowLongPtrW hwnd orig] /\
    (restore_fault env = NoFault -> window_proc w' = orig) /\
    (unregister_fault env = NoFault -> session_registered w' = false).
Proof.
  destruct env as [uf rf]. cbn. intros He Hw Ho Hh Hn Hp Hu.
  run_method. rewrite He, Hw, Ho, Hh. cbn.
  apply Z.eqb_neq in Hn, Hp. rewrite Hn, Hp. cbn.
  destruct uf; [| |congruence]; destruct rf; cbn;
    rewrite <- ?app_assoc; cbn;
    do 2 eexists; (split; [reflexivity|]); cbn;
    (repeat split; try reflexivity; try discriminate).
Qed.




(** C8.  Teardown never raises, whatever the instance, the host and the
    outcome of its calls, and on Windows it leaves no hook stored.  After an
    installation that worked it calls the unregistration first and then the
    restoration of the original window procedure.  A second teardown in a
    row, like a teardown with nothing installed, calls nothing and changes
    nothing. *)
Theorem teardown_never_raises_and_is_idempotent (ptr : Z) :
  (forall P env sw,
     fst (uninstall_session_notifications P env sw) = Ret tt) /\
  (forall env sw,
     hook_cleared
       (fst (snd (uninstall_session_notifications "win32" env sw)))) /\
  (forall ienv uenv s w hwnd,
     winfo_id ienv = Ret hwnd -> hwnd <> 0 ->
     get_wndproc_fault ienv = NoFault -> swap_fault ienv = NoFault ->
     register_fault ienv = NoFault -> window_proc w <> 0 ->
     unregister_fault uenv <> Raises ->
     exists s1 w1 s2 w2,
       install_session_notifications "win32" ptr ienv (s, w)
       = (Ret tt, (s1, w1)) /\
       _session_events s1 = true /\ window_proc w1 = ptr /\
       uninstall_session_notifications "win32" uenv (s1, w1)
       = (Ret tt, (s2, w2)) /\
       hook_cleared s2 /\
       native_calls w2 = native_calls w1 ++
         [WTSUnRegisterSessionNotification hwnd;
          SetWindowLongPtrW hwnd (window_proc w)] /\
       (restore_fault uenv = NoFault -> window_proc w2 = window_proc w) /\
       (unregister_fault uenv = NoFault -> session_registered w2 = false)) /\
  (forall env env' sw,
     uninstall_session_notifications "win32" env'
       (snd (uninstall_session_notifications "win32" env sw))
     = (Ret tt, snd (uninstall_session_notifications "win32" env sw))) /\
  (forall P env s w,
     hook_cleared s ->
     uninstall_session_notifications P env (s, w) = (Ret tt, (s, w))) /\
  (forall P env env' sw,
     snd (uninstall_session_notifications P env'
            (snd (uninstall_session_notifications P env sw)))
     = snd (uninstall_session_notifications P env sw)).
Proof.
  assert (Htwice : forall env env' sw,
    uninstall_session_notifications "win32" env'
      (snd (uninstall_session_notifications "win32" env sw))
    = (Ret tt, snd (uninstall_session_notifications "win32" env sw))).
  { intros env env' sw.
    pose proof (uninstall_clears env sw) as Hc.
    destruct (uninstall_session_notifications "win32" env sw)
      as [r [s1 w1]]. cbn [fst snd] in *.
    now apply uninstall_nothing_installed. }
  repeat split.
  - intros. apply uninstall_never_raises.
  - apply (uninstall_clears env sw).
  - apply (uninstall_clears env sw).
  - apply (uninstall_clears env sw).
  - apply (uninstall_clears env sw).
  - intros ienv uenv s w hwnd Hid Hn Hget Hswap Hreg Hp Hu.
    destruct (install_succeeds ptr ienv s w hwnd Hid Hget Hswap Hreg Hp)
      as (s1 & Hrun & He & Hw & Ho & Hh).
    destruct (uninstall_installed uenv s1
                {| window_proc := ptr; session_registered := true;
                   native_calls := native_calls w ++
                     [GetWindowLongPtrW hwnd; SetWindowLongPtrW hwnd ptr;
                      WTSRegisterSessionNotification hwnd] |}
                hwnd (window_proc w) ptr He Hw Ho Hh Hn Hp Hu)
      as (s2 & w2 & Hrun2 & Hc & Hcalls & Hrest & Hunreg).
    do 2 eexists. exists s2, w2.
    split; [exact Hrun|]. split; [exact He|]. split; [reflexivity|].
    split; [exact Hrun2|]. split; [exact Hc|]. split; [exact Hcalls|].
    split; assumption.
  - exact Htwice.
  - intros. now apply uninstall_nothing_installed.
  - intros P env env' sw.
    destruct (String.eqb_spec P "win32") as [->|HP].
    + now rewrite Htwice.
    + unfold uninstall_session_notifications.
      apply String.eqb_neq in HP. rewrite HP. reflexivity.
Qed.

(** C8, at an installation that works on the instance and the host at start,
    for the window 77 and the callback at 9000, followed by a teardown that
    works. *)
Lemma teardown_never_raises_and_is_idempotent_witness :
  exists s1 w1 s2 w2,
    install_session_notifications "win32" 9000 (install_works 77)
      (init, fresh_world) = (Ret tt, (s1, w1)) /\
    uninstall_session_notifications "win32" uninstall_works (s1, w1)
    = (Ret tt, (s2, w2)) /\
    hook_cleared s2 /\
    native_calls w2 = native_calls w1 ++
      [WTSUnRegisterSessionNotification 77; SetWindowLongPtrW 77 4242] /\
    window_proc w2 = 4242.
Proof.
  destruct (proj1 (proj2 (proj2 (teardown_never_raises_and_is_idempotent 9000)))
              (install_works 77) uninstall_works init fresh_world 77)
    as (s1 & w1 & s2 & w2 & I & _ & _ & U & C & L & R & _);
    try reflexivity; try discriminate.
  exists s1, w1, s2, w2.
  split; [exact I|]. split; [exact U|]. split; [exact C|].
  split; [exact L|]. apply R. reflexivity.
Defined.

(** ** Concrete runs *)

(** The swap fails: two calls, no restoring call, nothing stored. *)
Example install_swap_failing_run :
  exists s',
    install_session_notifications "win32" 9000 (install_swap_failing 77)
      (init, fresh_world)
    = (Ret tt,
       (s', {| window_proc := 4242; session_registered := false;
               native_calls :=
                 [GetWindowLongPtrW 77; SetWindowLongPtrW 77 9000] |})) /\
    _session_events s' = false /\ _wndproc s' = None /\
    _orig_wndproc s' = None.
Proof. eexists. split; [vm_compute; reflexivity | repeat split]. Qed.

(** A teardown whose calls raise, after an installation that worked: it
    returns, clears the hook, and has made the unregistering call only. *)
Example teardown_with_raising_calls_run :
  exists s1 w1 s2 w2,
    install_session_notifications "win32" 9000 (install_works 77)
      (init, fresh_world) = (Ret tt, (s1, w1)) /\
    uninstall_session_notifications "win32" uninstall_raising (s1, w1)
    = (Ret tt, (s2, w2)) /\
    hook_cleared s2 /\
    native_calls w2 =
      native_calls w1 ++ [WTSUnRegisterSessionNotification 77] /\
    window_proc w2 = 9000.
Proof.
  do 4 eexists. split; [vm_compute; reflexivity|].
  split; [vm_compute; reflexivity|]. repeat split.
Qed.

(** A probe that raises with an idle-time read that raises too: nothing
    guards the handler, and the exception leaves the tick. *)
Example idle_read_raising_run :
  check_lock_state_fallback false "win32" probe_raises_idle_raises = Raised /\
  run_timer_tick false "win32" whole_seconds_sub
      (40 # 1) probe_raises_idle_raises init
  = Raised.
Proof. split; reflexivity. Qed.

(** * Further properties of the engine, the monitor and the loops *)

(** ** The clamp and the icon refresh *)

(** X1.  Whatever the score, in range or not, [clamp_fatigue] brings it into
    0..80; it changes nothing exactly on the instances already in range, so
    clamping twice is clamping once; and it keeps the order of scores. *)
Theorem clamp_fatigue_projects (s s' : BioDaemon) :
  fatigue_in_range (clamp_fatigue s) /\
  (clamp_fatigue s = s <-> fatigue_in_range s) /\
  clamp_fatigue (clamp_fatigue s) = clamp_fatigue s /\
  (fatigue s <= fatigue s' ->
   fatigue (clamp_fatigue s) <= fatigue (clamp_fatigue s')).
Proof.
  split; [apply clamp_fatigue_in_range|]. split; [|split].
  - split; [|apply clamp_fatigue_id].
    intros E. rewrite <- E. apply clamp_fatigue_in_range.
  - apply clamp_fatigue_id, clamp_fatigue_in_range.
  - rewrite !clamp_fatigue_value. unfold LIMIT_DEATH. lia.
Qed.

(** X1, at the scores 200 and 300, both brought to 80. *)
Lemma clamp_fatigue_projects_witness :
  fatigue (clamp_fatigue (at_score 200))
  <= fatigue (clamp_fatigue (at_score 300)).
Proof.
  apply (clamp_fatigue_projects (at_score 200) (at_score 300)).
  by_evaluation.
Defined.

Lemma get_current_state_fatigue s s' :
  fatigue s = fatigue s' -> get_current_state s = get_current_state s'.
Proof. unfold get_current_state. now intros ->. Qed.

Lemma update_icon_state s : state (update_icon s) = get_current_state s.
Proof.
  unfold update_icon.
  destruct (String.eqb_spec (get_current_state s) (state s)) as [E|E];
    [now symmetry|].
  cbn. destruct (icon s); [|reflexivity].
  destruct (String.eqb _ "tombstone"); reflexivity.
Qed.

Lemma update_icon_coherent s :
  state s = get_current_state s -> update_icon s = s.
Proof.
  intros E. unfold update_icon. now rewrite <- E, String.eqb_refl.
Qed.

Lemma update_icon_notified s :
  notified (update_icon s)
  = (if (negb (String.eqb (get_current_state s) (state s))
         && String.eqb (get_current_state s) "tombstone"
         && match icon s with Some _ => true | None => false end)%bool
     then notified s ++ [RIP] else notified s).
Proof.
  unfold update_icon, notified.
  destruct (String.eqb (get_current_state s) (state s)); cbn;
    [reflexivity|].
  destruct (icon s) as [t|] eqn:I; cbn; rewrite ?I.
  + destruct (String.eqb _ "tombstone"); reflexivity.
  + destruct (String.eqb _ "tombstone"); reflexivity.
Qed.

(** X2.  After [update_icon] the cached state is the state of the score;
    a second refresh changes nothing, and so does a refresh of an instance
    whose cache was right; a new state is shown by the tray, and the only
    notification a refresh can send is the one for the tombstone, sent when
    the tombstone is entered and a tray exists. *)
Theorem update_icon_settles (s : BioDaemon) :
  state (update_icon s) = get_current_state (update_icon s) /\
  update_icon (update_icon s) = update_icon s /\
  (state s = get_current_state s -> update_icon s = s) /\
  (forall t, icon s = Some t -> state s <> get_current_state s ->
     exists t', icon (update_icon s) = Some t' /\
                tray_image t' = get_current_state s) /\
  notified (update_icon s)
  = (if (negb (String.eqb (get_current_state s) (state s))
         && String.eqb (get_current_state s) "tombstone"
         && match icon s with Some _ => true | None => false end)%bool
     then notified s ++ [RIP] else notified s).
Proof.
  assert (Hst : state (update_icon s) = get_current_state (update_icon s)).
  { rewrite update_icon_state.
    apply get_current_state_fatigue. now rewrite update_icon_fatigue. }
  split; [exact Hst|]. split; [now apply update_icon_coherent|].
  split; [apply update_icon_coherent|]. split.
  - intros t Ht Hne. unfold update_icon.
    destruct (String.eqb_spec (get_current_state s) (state s)) as [E|E];
      [now elim Hne|].
    cbn. rewrite Ht.
    destruct (String.eqb _ "tombstone"); unfold safe_notify; cbn;
      eexists; split; reflexivity.
  - apply update_icon_notified.
Qed.

(** X2, at a score of 80 under a cache that still says flat, with a tray. *)
Lemma update_icon_settles_witness :
  exists t',
    icon (update_icon (set_state "flat" (run_tray (at_score 80)))) = Some t' /\
    tray_image t' = "tombstone"%string.
Proof.
  destruct (update_icon_settles (set_state "flat" (run_tray (at_score 80))))
    as (_ & _ & _ & H & _).
  destruct (H {| tray_image := "round"; tray_notified := [] |})
    as (t' & I & T); [reflexivity | discriminate |].
  exists t'. split; [exact I | exact T].
Defined.

(** ** What every event keeps *)

Lemma update_icon_display s :
  tray_shows_state s -> display_coherent (update_icon s).
Proof.
  intros Ht. split.
  - rewrite update_icon_state.
    apply get_current_state_fatigue. now rewrite update_icon_fatigue.
  - unfold tray_shows_state, update_icon in *.
    destruct (String.eqb (get_current_state s) (state s)); [exact Ht|].
    cbn. destruct (icon s) as [t|] eqn:I; cbn; rewrite ?I; [|exact Logic.I].
    destruct (String.eqb _ "tombstone"); reflexivity.
Qed.

Lemma safe_notify_tray n s :
  tray_shows_state s -> tray_shows_state (safe_notify n s).
Proof.
  unfold tray_shows_state, safe_notify.
  destruct (icon s) as [t|] eqn:I; cbn; rewrite ?I; auto.
Qed.

Lemma handle_unlock_heal_display D q s :
  tray_shows_state s -> display_coherent (handle_unlock_heal D q s).
Proof.
  intros Ht. unfold handle_unlock_heal. apply update_icon_display.
  assert (Hc : forall x, tray_shows_state x ->
                         tray_shows_state (clamp_fatigue x))
    by (intros x Hx; exact Hx).
  apply Hc.
  destruct (fatigue s <? LIMIT_DEATH); [|exact Ht].
  destruct (calculate_healing _) as [heal|].
  - destruct (0 <? heal); [|exact Ht].
    apply safe_notify_tray. exact Ht.
  - apply safe_notify_tray. exact Ht.
Qed.

Lemma accrue_tray s : tray_shows_state s -> tray_shows_state (accrue s).
Proof.
  unfold accrue. destruct (fatigue s <? LIMIT_DEATH); intros H; exact H.
Qed.

Lemma detect_transition_tray (fsub : Q -> Q -> Q) D now currently_locked s :
  tray_shows_state s ->
  tray_shows_state (detect_transition D fsub now currently_locked s).
Proof.
  intros Ht. unfold detect_transition.
  destruct currently_locked, (is_locked s); cbn [negb]; try exact Ht.
  now apply handle_unlock_heal_display.
Qed.

Lemma step_display (fsub : Q -> Q -> Q) D P e s :
  display_coherent s -> display_coherent (step D P fsub e s).
Proof.
  intros Hd. pose proof (proj2 Hd) as Ht.
  destruct e as [now env | now msg wParam | msg ok]; cbn [step].
  - unfold run_timer_tick.
    destruct (_session_events s).
    + apply update_icon_display.
      destruct (is_locked s); cbn [negb]; [exact Ht | now apply accrue_tray].
    + destruct (check_lock_state_fallback D P env) as [b|]; [|exact Hd].
      apply update_icon_display.
      pose proof (detect_transition_tray fsub D now b s Ht) as Hm.
      destruct b; [exact Hm | now apply accrue_tray].
  - unfold py_wndproc. cbn [fst].
    destruct (msg =? WM_WTSSESSION_CHANGE); [|exact Hd].
    destruct (wParam =? WTS_SESSION_LOCK); [exact Hd|].
    destruct (wParam =? WTS_SESSION_UNLOCK); [|exact Hd].
    now apply handle_unlock_heal_display.
  - unfold run_main_loop_message.
    destruct (String.eqb msg "SHOW_RESURRECT_DIALOG").
    + destruct ok; [|exact Hd].
      unfold resurrect. apply update_icon_display. exact Ht.
    + destruct (String.eqb msg "EXIT"); exact Hd.
Qed.

(** X3.  The cached state and the tray image follow the score: between
    events the cached state is the state of the score and the tray, once
    created, shows the image of that state.  Every tick, session message
    and GUI message keeps this, so it holds along every run from the start,
    with or without a tray. *)
Theorem display_follows_score (fsub : Q -> Q -> Q) (D : bool) (P : string) :
  (forall e s, display_coherent s -> display_coherent (step D P fsub e s)) /\
  (forall events,
     display_coherent (run D P fsub events init) /\
     display_coherent (run D P fsub events (run_tray init))).
Proof.
  split; [intros; now apply step_display|].
  assert (Hrun : forall events s,
             display_coherent s -> display_coherent (run D P fsub events s)).
  { unfold run. induction events as [|e events IH]; intros s Hs; cbn;
      [exact Hs|]. apply IH. now apply step_display. }
  intros events. split; apply Hrun; split; reflexivity || exact I.
Qed.

(** X3, at a polling tick that detects an unlock after three minutes, from
    a score of 45 whose cache and tray say slouch. *)
Lemma display_follows_score_witness :
  display_coherent
    (step false "win32" whole_seconds_sub (Tick (240 # 1) probe_default)
       (update_icon (locked_since (60 # 1) (run_tray (at_score 45))))).
Proof.
  apply (display_follows_score whole_seconds_sub false "win32").
  split; reflexivity.
Defined.

Lemma handle_unlock_heal_hook D q s : same_hook s (handle_unlock_heal D q s).
Proof.
  unfold same_hook, handle_unlock_heal.
  match goal with
  | |- context [update_icon ?x] =>
      destruct (update_icon_hook x) as (-> & -> & -> & ->)
  end.
  destruct (fatigue s <? LIMIT_DEATH); [|repeat split].
  destruct (calculate_healing _) as [heal|].
  - destruct (0 <? heal); [|repeat split].
    unfold safe_notify; cbn. destruct (icon s); repeat split.
  - unfold safe_notify; cbn. destruct (icon s); repeat split.
Qed.

Lemma update_icon_same_hook s s0 :
  same_hook s0 s -> same_hook s0 (update_icon s).
Proof.
  unfold same_hook.
  destruct (update_icon_hook s) as (-> & -> & -> & ->). auto.
Qed.

Lemma accrue_same_hook s s0 : same_hook s0 s -> same_hook s0 (accrue s).
Proof.
  unfold accrue. destruct (fatigue s <? LIMIT_DEATH); intros H; exact H.
Qed.

Lemma detect_transition_hook (fsub : Q -> Q -> Q) D now currently_locked s :
  same_hook s (detect_transition D fsub now currently_locked s).
Proof.
  unfold detect_transition.
  destruct currently_locked, (is_locked s); cbn [negb];
    try (repeat split; fail).
  match goal with
  | |- same_hook _ (handle_unlock_heal ?d ?q ?x) =>
      destruct (handle_unlock_heal_hook d q x) as (E1 & E2 & E3 & E4)
  end.
  repeat split; assumption.
Qed.

Lemma step_same_hook (fsub : Q -> Q -> Q)
  D P e s : same_hook s (step D P fsub e s).
Proof.
  destruct e as [now env | now msg wParam | msg ok]; cbn [step].
  - unfold run_timer_tick.
    destruct (_session_events s) eqn:E.
    + apply update_icon_same_hook.
      destruct (is_locked s); cbn [negb];
        [|apply accrue_same_hook]; repeat split.
    + destruct (check_lock_state_fallback D P env) as [b|];
        [|repeat split].
      apply update_icon_same_hook.
      pose proof (detect_transition_hook fsub D now b s) as Hm.
      assert (Hc : forall x, same_hook s x -> same_hook s (clamp_fatigue x))
        by (intros x Hx; exact Hx).
      apply Hc. destruct b; [exact Hm | now apply accrue_same_hook].
  - unfold py_wndproc. cbn [fst].
    destruct (msg =? WM_WTSSESSION_CHANGE); [|repeat split].
    destruct (wParam =? WTS_SESSION_LOCK); [repeat split|].
    destruct (wParam =? WTS_SESSION_UNLOCK); [|repeat split].
    match goal with
    | |- same_hook _ (handle_unlock_heal ?d ?q ?x) =>
        destruct (handle_unlock_heal_hook d q x) as (E1 & E2 & E3 & E4)
    end.
    repeat split; assumption.
  - unfold run_main_loop_message.
    destruct (String.eqb msg "SHOW_RESURRECT_DIALOG").
    + destruct ok; [|repeat split].
      unfold resurrect. apply update_icon_same_hook. repeat split.
    + destruct (String.eqb msg "EXIT"); repeat split.
Qed.

Lemma step_running (fsub : Q -> Q -> Q) D P e s :
  running (step D P fsub e s) = running s \/
  (exists askokcancel, e = GuiMessage "EXIT" askokcancel) /\
  running (step D P fsub e s) = false.
Proof.
  destruct e as [now env | now msg wParam | msg ok]; cbn [step].
  - left. unfold run_timer_tick.
    destruct (_session_events s).
    + destruct (update_icon_session
                  (if negb (is_locked s) then accrue s else s))
        as (_ & _ & ->).
      destruct (is_locked s); cbn [negb]; [reflexivity|].
      now destruct (accrue_session s) as (_ & _ & ->).
    + destruct (check_lock_state_fallback D P env) as [b|]; [|reflexivity].
      match goal with
      | |- running (update_icon ?x) = _ =>
          destruct (update_icon_session x) as (_ & _ & ->)
      end.
      unfold clamp_fatigue. cbn [running set_fatigue].
      assert (Hd : running (detect_transition D fsub now b s) = running s).
      { unfold detect_transition.
        destruct b, (is_locked s); cbn [negb]; try reflexivity.
        match goal with
        | |- running (handle_unlock_heal ?d ?q ?x) = _ =>
            now destruct (handle_unlock_heal_session d q x) as (_ & _ & ->)
        end. }
      destruct b; [exact Hd|].
      now destruct (accrue_session (detect_transition D fsub now false s))
        as (_ & _ & ->).
  - left. unfold py_wndproc. cbn [fst].
    destruct (msg =? WM_WTSSESSION_CHANGE); [|reflexivity].
    destruct (wParam =? WTS_SESSION_LOCK); [reflexivity|].
    destruct (wParam =? WTS_SESSION_UNLOCK); [|reflexivity].
    match goal with
    | |- running (handle_unlock_heal ?d ?q ?x) = _ =>
        now destruct (handle_unlock_heal_session d q x) as (_ & _ & ->)
    end.
  - unfold run_main_loop_message.
    destruct (String.eqb msg "SHOW_RESURRECT_DIALOG").
    + left. destruct ok; [|reflexivity].
      unfold resurrect.
      now destruct (update_icon_session (clamp_fatigue (set_fatigue 0 s)))
        as (_ & _ & ->).
    + destruct (String.eqb_spec msg "EXIT") as [->|]; [right | now left].
      split; [now exists ok | reflexivity].
Qed.

(** X4.  No tick, session message or GUI message writes a hook attribute:
    the mode chosen at installation, the stored callback, the stored
    original procedure and the window handle stay as they were along every
    run; and the run flag is cleared by the "EXIT" message alone. *)
Theorem events_keep_hook_and_mode (fsub : Q -> Q -> Q) (D : bool) (P : string) :
  (forall e s, same_hook s (step D P fsub e s)) /\
  (forall events s, same_hook s (run D P fsub events s)) /\
  (forall e s,
     running (step D P fsub e s) = running s \/
     (exists askokcancel, e = GuiMessage "EXIT" askokcancel) /\
     running (step D P fsub e s) = false).
Proof.
  split; [intros; apply step_same_hook|]. split; [|intros; apply step_running].
  unfold run. induction events as [|e events IH]; intros s; cbn.
  - repeat split.
  - destruct (IH (step D P fsub e s)) as (E1 & E2 & E3 & E4).
    destruct (step_same_hook fsub D P e s) as (F1 & F2 & F3 & F4).
    unfold same_hook. rewrite E1, E2, E3, E4. auto.
Qed.

(** ** The lock start *)

Lemma detect_transition_lock_start (fsub : Q -> Q -> Q)
  D now currently_locked s :
  lock_start_only_when_locked s ->
  lock_start_only_when_locked (detect_transition D fsub now currently_locked s).
Proof.
  unfold lock_start_only_when_locked, detect_transition. intros Hs.
  destruct currently_locked, (is_locked s) eqn:L; cbn [negb];
    try (intros; now auto);
    try (intros H; cbn in H; discriminate);
    try (rewrite L; discriminate).
  intros _.
  match goal with
  | |- lock_start_time (handle_unlock_heal ?d ?q ?x) = _ =>
      now destruct (handle_unlock_heal_session d q x) as (_ & -> & _)
  end.
Qed.

Lemma step_lock_start (fsub : Q -> Q -> Q) D P e s :
  lock_start_only_when_locked s ->
  lock_start_only_when_locked (step D P fsub e s).
Proof.
  intros Hs.
  destruct e as [now env | now msg wParam | msg ok]; cbn [step].
  - unfold run_timer_tick.
    destruct (_session_events s).
    + unfold lock_start_only_when_locked.
      destruct (update_icon_session
                  (if negb (is_locked s) then accrue s else s))
        as (-> & -> & _).
      destruct (is_locked s) eqn:L; cbn [negb]; [now rewrite L|].
      destruct (accrue_session s) as (-> & -> & _). exact Hs.
    + destruct (check_lock_state_fallback D P env) as [b|]; [|exact Hs].
      pose proof (detect_transition_lock_start fsub D now b s Hs) as Hm.
      unfold lock_start_only_when_locked in *.
      match goal with
      | |- is_locked (update_icon ?x) = _ -> _ =>
          destruct (update_icon_session x) as (-> & -> & _)
      end.
      unfold clamp_fatigue. cbn [is_locked lock_start_time set_fatigue].
      destruct b; [exact Hm|].
      destruct (accrue_session (detect_transition D fsub now false s))
        as (-> & -> & _). exact Hm.
  - unfold py_wndproc. cbn [fst].
    destruct (msg =? WM_WTSSESSION_CHANGE); [|exact Hs].
    destruct (wParam =? WTS_SESSION_LOCK);
      [unfold lock_start_only_when_locked; intros H; cbn in H;
       discriminate|].
    destruct (wParam =? WTS_SESSION_UNLOCK); [|exact Hs].
    unfold lock_start_only_when_locked. intros _.
    match goal with
    | |- lock_start_time (handle_unlock_heal ?d ?q ?x) = _ =>
        now destruct (handle_unlock_heal_session d q x) as (_ & -> & _)
    end.
  - unfold run_main_loop_message.
    destruct (String.eqb msg "SHOW_RESURRECT_DIALOG").
    + destruct ok; [|exact Hs].
      unfold resurrect, lock_start_only_when_locked.
      destruct (update_icon_session (clamp_fatigue (set_fatigue 0 s)))
        as (-> & -> & _).
      exact Hs.
    + destruct (String.eqb msg "EXIT"); exact Hs.
Qed.

(** X5.  A lock start is recorded only while the session is locked: every
    unlock, seen by the hook or by polling, clears it, and nothing else
    writes it; so along every run from the start an unlocked session has
    lock start 0. *)
Theorem lock_start_cleared_when_unlocked (fsub : Q -> Q -> Q)
  (D : bool) (P : string) :
  (forall e s,
     lock_start_only_when_locked s ->
     lock_start_only_when_locked (step D P fsub e s)) /\
  (forall events,
     is_locked (run D P fsub events init) = false ->
     lock_start_time (run D P fsub events init) = 0%Q).
Proof.
  split; [intros; now apply step_lock_start|].
  assert (Hrun : forall events s,
             lock_start_only_when_locked s ->
             lock_start_only_when_locked (run D P fsub events s)).
  { unfold run. induction events as [|e events IH]; intros s Hs; cbn;
      [exact Hs|]. apply IH. now apply step_lock_start. }
  intros events. apply Hrun. intros _. reflexivity.
Qed.

(** X5, at a lock message at second 5 followed by an unlock message at
    second 65. *)
Lemma lock_start_cleared_when_unlocked_witness :
  lock_start_time
    (run false "win32" whole_seconds_sub
       [WindowMessage (5 # 1) WM_WTSSESSION_CHANGE WTS_SESSION_LOCK;
        WindowMessage (65 # 1) WM_WTSSESSION_CHANGE WTS_SESSION_UNLOCK]
       init) = 0%Q.
Proof.
  apply (lock_start_cleared_when_unlocked whole_seconds_sub false "win32").
  reflexivity.
Defined.

(** ** Healing against the clock *)

Lemma quot_nonpos n d : n <= 0 -> 0 < d -> n ÷ d <= 0.
Proof.
  intros Hn Hd.
  replace n with (- - n) by lia.
  rewrite Z.quot_opp_l by lia.
  pose proof (Z.quot_pos (- n) d). lia.
Qed.

Lemma quot_ge n d k : 0 < d -> 0 < k -> (k <= n ÷ d <-> k * d <= n).
Proof.
  intros Hd Hk.
  destruct (Z.le_gt_cases 0 n) as [Hn|Hn].
  - rewrite Z.quot_div_nonneg by lia. split; intros H.
    + pose proof (Z.mul_div_le n d Hd). nia.
    + apply Z.div_le_lower_bound; lia.
  - pose proof (quot_nonpos n d). split; intros Hle; nia.
Qed.

(** Truncation keeps the order of fractions. *)
Lemma quot_monotone n1 d1 n2 d2 :
  0 < d1 -> 0 < d2 -> n1 * d2 <= n2 * d1 -> n1 ÷ d1 <= n2 ÷ d2.
Proof.
  intros H1 H2 H.
  assert (Hpos : forall a b c e, 0 < b -> 0 < e -> a * e <= c * b ->
                   0 < a ÷ b -> a ÷ b <= c ÷ e).
  { intros a b c e Hb He Hle Ha.
    apply quot_ge; [lia | lia |].
    assert (Hab : (a ÷ b) * b <= a) by (apply quot_ge; lia).
    nia. }
  destruct (Z.lt_ge_cases 0 (n1 ÷ d1)) as [Ha|Ha]; [now apply Hpos|].
  destruct (Z.le_gt_cases 0 n2) as [Hn|Hn].
  - pose proof (Z.quot_pos n2 d2). lia.
  - destruct (Z.lt_ge_cases 0 ((- n2) ÷ d2)) as [Hb|Hb].
    + pose proof (Hpos (- n2) d2 (- n1) d1 H2 H1) as Hq.
      rewrite !Z.quot_opp_l in * by lia. lia.
    + rewrite Z.quot_opp_l in Hb by lia. lia.
Qed.

Lemma minutes_away_monotone D q1 q2 :
  (q1 <= q2)%Q -> minutes_away D q1 <= minutes_away D q2.
Proof.
  unfold Qle, minutes_away, py_int. intros H.
  apply quot_monotone; [reflexivity | reflexivity |].
  destruct D; cbn; rewrite ?Pos2Z.inj_mul; nia.
Qed.

Lemma minutes_away_ge D q k :
  0 < k ->
  (k <= minutes_away D q <->
   (inject_Z (k * (if D then 1 else 60)) <= q)%Q).
Proof.
  intros Hk. unfold minutes_away, py_int.
  rewrite quot_ge by (reflexivity || exact Hk).
  unfold Qle, inject_Z.
  destruct D; cbn; rewrite ?Pos2Z.inj_mul; lia.
Qed.

(** The score after an unlock, against the length of the break in minutes. *)
Lemma heal_antitone_in_minutes D q1 q2 s :
  fatigue_in_range s ->
  minutes_away D q1 <= minutes_away D q2 ->
  fatigue (handle_unlock_heal D q2 s) <= fatigue (handle_unlock_heal D q1 s).
Proof.
  unfold fatigue_in_range. intros Hs Hd.
  rewrite !handle_unlock_heal_fatigue.
  unfold calculate_healing, LIMIT_DEATH, MIN_BREAK_TIME, FULL_RESET_TIME in *.
  set (d1 := minutes_away D q1) in *. set (d2 := minutes_away D q2) in *.
  destruct (Z.ltb_spec (fatigue s) 80); [|lia].
  destruct (Z.ltb_spec d1 2), (Z.ltb_spec d2 2),
    (Z.leb_spec 15 d1), (Z.leb_spec 15 d2),
    (Z.ltb_spec d1 5), (Z.ltb_spec d2 5); try lia;
    repeat match goal with
      | |- context [0 <? ?x] => destruct (Z.ltb_spec 0 x)
      end; lia.
Qed.

(** X6.  A longer break never leaves a higher score: for two breaks on the
    same instance, the one at least as long on the clock ends with a score
    at most that of the other. *)
Theorem longer_break_heals_no_less (D : bool) (q1 q2 : Q) (s : BioDaemon) :
  fatigue_in_range s -> (q1 <= q2)%Q ->
  fatigue (handle_unlock_heal D q2 s) <= fatigue (handle_unlock_heal D q1 s).
Proof.
  intros Hs Hq. apply heal_antitone_in_minutes; [exact Hs|].
  now apply minutes_away_monotone.
Qed.

(** X6, at breaks of 299.5 and 300 seconds from a score of 60: the first
    counts four minutes, the second five. *)
Lemma longer_break_heals_no_less_witness :
  fatigue (handle_unlock_heal false (300 # 1) (at_score 60))
  <= fatigue (handle_unlock_heal false (599 # 2) (at_score 60)).
Proof.
  apply (longer_break_heals_no_less false (599 # 2) (300 # 1) (at_score 60)).
  - unfold fatigue_in_range. by_evaluation.
  - unfold Qle. by_evaluation.
Defined.

(** X7.  The healing thresholds in clock time, one unit being a minute of
    60 seconds (one second in debug mode): a break of less than 2 units
    leaves the score alone, fractions of a unit never counting; a break of
    15 units or more brings a score below the cap to 0; and from 2 units on
    a score strictly between 0 and the cap goes down. *)
Theorem heal_thresholds_on_the_clock (D : bool) (q : Q) (s : BioDaemon) :
  fatigue_in_range s ->
  let unit := if D then 1 else 60 in
  let after := fatigue (handle_unlock_heal D q s) in
  ((q < inject_Z (2 * unit))%Q -> after = fatigue s) /\
  ((inject_Z (15 * unit) <= q)%Q -> fatigue s < LIMIT_DEATH -> after = 0) /\
  ((inject_Z (2 * unit) <= q)%Q -> 0 < fatigue s < LIMIT_DEATH ->
   after < fatigue s).
Proof.
  unfold fatigue_in_range. intros Hs. cbv zeta.
  rewrite handle_unlock_heal_fatigue.
  pose proof (minutes_away_ge D q 2 ltac:(lia)) as H2.
  pose proof (minutes_away_ge D q 15 ltac:(lia)) as H15.
  destruct (calculate_healing_cases (minutes_away D q)) as (C0 & C1 & C2 & C3).
  set (d := minutes_away D q) in *.
  unfold LIMIT_DEATH in *.
  split; [|split].
  - intros Hq. apply Qlt_not_le in Hq.
    assert (Hd : d < 2) by (destruct (Z.lt_ge_cases d 2); tauto).
    rewrite (C0 Hd). cbn. destruct (fatigue s <? 80); lia.
  - intros Hq Hf. apply H15 in Hq.
    rewrite (C1 Hq). destruct (Z.ltb_spec (fatigue s) 80); lia.
  - intros Hq Hf. apply H2 in Hq.
    destruct (Z.ltb_spec (fatigue s) 80); [|lia].
    destruct (Z.lt_ge_cases d 5); [rewrite C2 by lia|].
    + destruct (Z.ltb_spec 0 (2 * d)); lia.
    + destruct (Z.lt_ge_cases d 15); [rewrite C3 by lia | rewrite C1 by lia].
      * destruct (Z.ltb_spec 0 (4 * d)); lia.
      * lia.
Qed.

(** X7, at a break of 119.5 seconds from a score of 30. *)
Lemma heal_thresholds_on_the_clock_witness :
  fatigue (handle_unlock_heal false (239 # 2) (at_score 30)) = 30.
Proof.
  assert (Hs : fatigue_in_range (at_score 30))
    by (unfold fatigue_in_range; by_evaluation).
  destruct (heal_thresholds_on_the_clock false (239 # 2) (at_score 30) Hs)
    as (H & _).
  apply H. unfold Qlt. by_evaluation.
Defined.

(** ** Notifications *)

Lemma get_current_state_tombstone s :
  String.eqb (get_current_state s) "tombstone" = (LIMIT_DEATH <=? fatigue s).
Proof.
  unfold get_current_state, LIMIT_ROUND, LIMIT_SLOUCH, LIMIT_MELT, LIMIT_FLAT,
    LIMIT_DEATH.
  destruct (Z.ltb_spec (fatigue s) 45), (Z.ltb_spec (fatigue s) 60),
    (Z.ltb_spec (fatigue s) 70), (Z.ltb_spec (fatigue s) 80),
    (Z.leb_spec 80 (fatigue s)); try lia; reflexivity.
Qed.

(** A refresh below the cap, like a refresh under a cache that is right,
    sends nothing. *)
Lemma update_icon_silent s :
  fatigue s < LIMIT_DEATH \/ state s = get_current_state s ->
  notified (update_icon s) = notified s.
Proof.
  intros H.
  rewrite update_icon_notified, get_current_state_tombstone.
  destruct H as [H | H].
  - destruct (Z.leb_spec LIMIT_DEATH (fatigue s)); [lia|].
    now rewrite Bool.andb_false_r.
  - rewrite <- H, String.eqb_refl. reflexivity.
Qed.

Lemma safe_notify_notified n s t :
  icon s = Some t -> notified (safe_notify n s) = notified s ++ [n].
Proof. intros I. unfold notified, safe_notify. rewrite I. reflexivity. Qed.

(** X8.  What an unlock announces, when a tray exists and the cache is
    right: nothing at the cap and nothing for a break under two minutes;
    "Perfect Break" with the 45 healthy minutes for a break of fifteen
    minutes or more; otherwise "Welcome Back" with the nominal amount, twice
    or four times the minutes (even when the score was smaller than that),
    and the healthy minutes left after the new score.  The tombstone is
    never announced by an unlock. *)
Theorem unlock_announces_heal (D : bool) (q : Q) (s : BioDaemon) (t : Tray) :
  icon s = Some t -> state s = get_current_state s -> fatigue_in_range s ->
  let d := minutes_away D q in
  let s' := handle_unlock_heal D q s in
  (fatigue s = LIMIT_DEATH \/ d < 2 -> notified s' = notified s) /\
  (fatigue s < LIMIT_DEATH -> 15 <= d ->
   notified s' = notified s ++ [PerfectBreak 45]) /\
  (fatigue s < LIMIT_DEATH -> 2 <= d < 15 ->
   notified s' = notified s ++
     [WelcomeBack ((if d <? 5 then 2 else 4) * d)
        (Z.max 0 (45 - fatigue s'))]) /\
  ~ In RIP (skipn (length (notified s)) (notified s')).
Proof.
  intros I Hc Hs. cbv zeta.
  destruct (calculate_healing_cases (minutes_away D q)) as (C0 & C1 & C2 & C3).
  set (d := minutes_away D q) in *.
  assert (Hquiet : fatigue s = LIMIT_DEATH \/ d < 2 ->
                   handle_unlock_heal D q s = s).
  { intros [Hf | Hd].
    - rewrite handle_unlock_heal_at_cap by exact Hf.
      now apply update_icon_coherent.
    - unfold handle_unlock_heal. fold d. rewrite (C0 Hd). cbn [Z.ltb Z.compare].
      replace (if fatigue s <? LIMIT_DEATH then s else s) with s
        by now destruct (fatigue s <? LIMIT_DEATH).
      rewrite clamp_fatigue_id by exact Hs. now apply update_icon_coherent. }
  assert (Hfull : fatigue s < LIMIT_DEATH -> 15 <= d ->
            notified (handle_unlock_heal D q s)
            = notified s ++ [PerfectBreak 45]).
  { intros Hf Hd. unfold handle_unlock_heal. fold d.
    apply Z.ltb_lt in Hf. rewrite Hf, (C1 Hd).
    rewrite update_icon_silent
      by (left; rewrite clamp_fatigue_value, safe_notify_fatigue;
          unfold LIMIT_DEATH; cbn; lia).
    unfold clamp_fatigue, notified at 1. cbn [icon set_fatigue].
    fold (notified (safe_notify (PerfectBreak LIMIT_ROUND) (set_fatigue 0 s))).
    now rewrite (safe_notify_notified _ _ t). }
  assert (Hpart : fatigue s < LIMIT_DEATH -> 2 <= d < 15 ->
            notified (handle_unlock_heal D q s)
            = notified s ++
                [WelcomeBack ((if d <? 5 then 2 else 4) * d)
                   (Z.max 0 (45 - fatigue (handle_unlock_heal D q s)))]).
  { intros Hf Hd.
    assert (Hcalc : calculate_healing d
                    = Amount ((if d <? 5 then 2 else 4) * d)).
    { destruct (Z.ltb_spec d 5); [apply C2 | apply C3]; lia. }
    set (heal := (if d <? 5 then 2 else 4) * d) in *.
    assert (Hh : 0 < heal)
      by (subst heal; destruct (Z.ltb_spec d 5); lia).
    rewrite handle_unlock_heal_fatigue. fold d. rewrite Hcalc.
    unfold handle_unlock_heal. fold d. rewrite Hcalc.
    pose proof Hf as Hf'. apply Z.ltb_lt in Hf'. rewrite Hf'.
    pose proof Hh as Hh'. apply Z.ltb_lt in Hh'. rewrite Hh'.
    unfold fatigue_in_range, LIMIT_DEATH in *.
    rewrite update_icon_silent
      by (left; rewrite clamp_fatigue_value, safe_notify_fatigue;
          unfold LIMIT_DEATH; cbn; lia).
    unfold clamp_fatigue, notified at 1. cbn [icon set_fatigue fatigue].
    match goal with
    | |- match icon (safe_notify ?n ?x) with _ => _ end = _ =>
        fold (notified (safe_notify n x));
        rewrite (safe_notify_notified n x t) by exact I
    end.
    unfold LIMIT_ROUND.
    replace (Z.max 0 (Z.min (Z.max 0 (fatigue s - heal)) 80))
      with (Z.max 0 (fatigue s - heal)) by lia.
    reflexivity. }
  split; [intros H; now rewrite Hquiet|].
  split; [exact Hfull|]. split; [exact Hpart|].
  unfold fatigue_in_range, LIMIT_DEATH in *.
  destruct (Z.eq_dec (fatigue s) 80) as [E|E].
  { rewrite Hquiet by now left. rewrite skipn_all. intros []. }
  destruct (Z.lt_ge_cases d 2).
  { rewrite Hquiet by now right. rewrite skipn_all. intros []. }
  destruct (Z.lt_ge_cases d 15).
  - rewrite Hpart by lia. rewrite skipn_app, skipn_all, Nat.sub_diag.
    cbn. intros [H'|[]]. discriminate.
  - rewrite Hfull by lia. rewrite skipn_app, skipn_all, Nat.sub_diag.
    cbn. intros [H'|[]]. discriminate.
Qed.

(** X8, at a break of four minutes from a score of 3: eight are announced,
    three were there to heal. *)
Lemma unlock_announces_heal_witness :
  notified (handle_unlock_heal false (240 # 1) (run_tray (at_score 3)))
  = [WelcomeBack 8 45].
Proof.
  destruct (unlock_announces_heal false (240 # 1) (run_tray (at_score 3))
              {| tray_image := "round"; tray_notified := [] |})
    as (_ & _ & H & _).
  - reflexivity.
  - reflexivity.
  - unfold fatigue_in_range. by_evaluation.
  - rewrite H; [reflexivity | by_evaluation | by_evaluation].
Defined.

(** X9.  In event-driven mode, with a tray and a cache that is right, a
    tick announces the tombstone exactly when it takes an unlocked session
    from 79 to 80, and announces nothing otherwise; at the cap the tick
    leaves the whole instance as it is, so the death is announced once. *)
Theorem tombstone_announced_once (fsub : Q -> Q -> Q)
  (D : bool) (P : string) (now : Q)
  (env : ProbeEnv) (s : BioDaemon) (t : Tray) :
  icon s = Some t -> state s = get_current_state s -> fatigue_in_range s ->
  _session_events s = true ->
  exists s',
    run_timer_tick D P fsub now env s = Ret s' /\
    (is_locked s = false -> fatigue s = 79 ->
     notified s' = notified s ++ [RIP] /\ state s' = "tombstone"%string) /\
    (is_locked s = true \/ fatigue s <> 79 -> notified s' = notified s) /\
    (fatigue s = LIMIT_DEATH -> s' = s).
Proof.
  intros I Hc Hs E.
  eexists. split; [now apply run_timer_tick_event_driven|].
  unfold fatigue_in_range, LIMIT_DEATH in *.
  split; [|split].
  - intros L F. rewrite L. cbn [negb].
    unfold accrue, LIMIT_DEATH. rewrite F. cbn [Z.ltb Z.compare Pos.compare
      Pos.compare_cont Z.add Pos.add Pos.succ].
    split.
    + rewrite update_icon_notified.
      unfold get_current_state at 1 2. cbn.
      rewrite Hc. unfold get_current_state. rewrite F, I. reflexivity.
    + rewrite update_icon_state. reflexivity.
  - intros H. destruct (is_locked s) eqn:L; cbn [negb].
    + now rewrite update_icon_coherent.
    + destruct H as [H|H]; [discriminate|].
      rewrite update_icon_silent.
      * unfold accrue. destruct (fatigue s <? LIMIT_DEATH); reflexivity.
      * unfold accrue, LIMIT_DEATH.
        destruct (Z.ltb_spec (fatigue s) 80); [left; cbn; lia | now right].
  - intros F.
    replace (if negb (is_locked s) then accrue s else s) with s.
    + now apply update_icon_coherent.
    + destruct (is_locked s); cbn [negb]; [reflexivity|].
      symmetry. now apply accrue_at_cap.
Qed.

(** X9, at an unlocked session with a tray at a score of 79. *)
Lemma tombstone_announced_once_witness :
  exists s',
    run_timer_tick false "win32" whole_seconds_sub 0 probe_default
      (update_icon (event_driven (run_tray (at_score 79)))) = Ret s' /\
    notified s' = [RIP].
Proof.
  destruct (tombstone_announced_once whole_seconds_sub
      false "win32" 0 probe_default
              (update_icon (event_driven (run_tray (at_score 79))))
              {| tray_image := "flat"; tray_notified := [] |})
    as (s' & T & H & _).
  - reflexivity.
  - reflexivity.
  - unfold fatigue_in_range. by_evaluation.
  - reflexivity.
  - exists s'. split; [exact T|].
    destruct H as (N & _); [reflexivity | reflexivity |]. exact N.
Defined.

(** ** The replacement window procedure *)

(** X10.  The replacement procedure is transparent: a message that is not
    a session change, like a session change that is neither a lock nor an
    unlock, leaves the instance alone; and every message, a session change
    too, is forwarded to the original procedure as long as one is stored,
    and to nothing otherwise. *)
Theorem py_wndproc_is_transparent (fsub : Q -> Q -> Q)
  (D : bool) (now : Q) (msg wParam : Z)
  (s : BioDaemon) :
  (msg <> WM_WTSSESSION_CHANGE \/
   wParam <> WTS_SESSION_LOCK /\ wParam <> WTS_SESSION_UNLOCK ->
   fst (py_wndproc D fsub now msg wParam s) = s) /\
  snd (py_wndproc D fsub now msg wParam s)
  = (if truthy (_orig_wndproc s) then _orig_wndproc s else None).
Proof.
  split.
  - intros H. unfold py_wndproc. cbn [fst].
    destruct (Z.eqb_spec msg WM_WTSSESSION_CHANGE); [|reflexivity].
    destruct H as [H | (H1 & H2)]; [contradiction|].
    destruct (Z.eqb_spec wParam WTS_SESSION_LOCK); [contradiction|].
    destruct (Z.eqb_spec wParam WTS_SESSION_UNLOCK); [contradiction|].
    reflexivity.
  - assert (Ho : _orig_wndproc (fst (py_wndproc D fsub now msg wParam s))
                 = _orig_wndproc s).
    { pose proof (step_same_hook fsub D "win32" (WindowMessage now msg wParam) s)
        as (_ & _ & Ho & _). exact Ho. }
    unfold py_wndproc in *. cbn [fst snd] in *. now rewrite Ho.
Qed.

(** X10, at a paint message (15) with the original procedure at 4242. *)
Lemma py_wndproc_is_transparent_witness :
  fst (py_wndproc false whole_seconds_sub
      0 15 0 (set_orig_wndproc (Some 4242) init))
  = set_orig_wndproc (Some 4242) init.
Proof.
  apply (py_wndproc_is_transparent whole_seconds_sub false 0 15 0
           (set_orig_wndproc (Some 4242) init)).
  left. discriminate.
Defined.

(** X11.  A lock message followed by an unlock message: the lock records
    its time and leaves the score alone; the unlock ends unlocked with the
    lock start cleared and the score healed by the difference, as floats
    subtract, between the times of the two messages.  An unlock with no
    lock start recorded heals by a break of length 0, that is, not at all. *)
Theorem lock_then_unlock_heals_by_elapsed (fsub : Q -> Q -> Q)
  (D : bool) (t1 t2 : Q)
  (s : BioDaemon) :
  let locked := fst (py_wndproc D fsub t1 WM_WTSSESSION_CHANGE WTS_SESSION_LOCK s) in
  let unlocked :=
    fst (py_wndproc D fsub t2 WM_WTSSESSION_CHANGE WTS_SESSION_UNLOCK locked) in
  is_locked locked = true /\ lock_start_time locked = t1 /\
  fatigue locked = fatigue s /\
  is_locked unlocked = false /\ lock_start_time unlocked = 0%Q /\
  (Qeq_bool t1 0 = false ->
   fatigue unlocked = fatigue (handle_unlock_heal D (fsub t2 t1) s)) /\
  (fatigue_in_range s -> Qeq_bool (lock_start_time s) 0 = true ->
   fatigue (fst (py_wndproc D fsub t2 WM_WTSSESSION_CHANGE WTS_SESSION_UNLOCK s))
   = fatigue s).
Proof.
  cbv zeta. unfold py_wndproc. cbn [fst].
  cbn [Z.eqb WM_WTSSESSION_CHANGE WTS_SESSION_LOCK WTS_SESSION_UNLOCK
       Pos.eqb].
  cbn [is_locked lock_start_time fatigue set_is_locked set_lock_start_time].
  split; [reflexivity|]. split; [reflexivity|]. split; [reflexivity|].
  split; [|split; [|split]].
  - match goal with
    | |- is_locked (handle_unlock_heal ?d ?q ?x) = _ =>
        now destruct (handle_unlock_heal_session d q x) as (-> & _)
    end.
  - match goal with
    | |- lock_start_time (handle_unlock_heal ?d ?q ?x) = _ =>
        now destruct (handle_unlock_heal_session d q x) as (_ & -> & _)
    end.
  - intros H. rewrite H. now rewrite !handle_unlock_heal_fatigue.
  - intros Hs H. rewrite H. rewrite handle_unlock_heal_fatigue.
    cbn [fatigue set_lock_start_time set_is_locked].
    unfold fatigue_in_range, LIMIT_DEATH in *.
    replace (minutes_away D 0) with 0 by (destruct D; reflexivity).
    cbn. destruct (fatigue s <? 80); lia.
Qed.

(** X11, at a lock at second 100 and an unlock at second 1000 from a score
    of 70: fifteen minutes, a full reset. *)
Lemma lock_then_unlock_heals_by_elapsed_witness :
  fatigue
    (fst (py_wndproc false whole_seconds_sub
        (1000 # 1) WM_WTSSESSION_CHANGE WTS_SESSION_UNLOCK
            (fst (py_wndproc false whole_seconds_sub
                (100 # 1) WM_WTSSESSION_CHANGE
                    WTS_SESSION_LOCK (at_score 70))))) = 0.
Proof.
  destruct (lock_then_unlock_heals_by_elapsed whole_seconds_sub
      false (100 # 1) (1000 # 1)
              (at_score 70)) as (_ & _ & _ & _ & _ & H & _).
  rewrite H; reflexivity.
Defined.

(** ** A lock seen by polling, from first sight to unlock *)

(** A polling tick whose probe answers locked. *)
Lemma polling_tick_locked (fsub : Q -> Q -> Q) D P now env s :
  fatigue_in_range s -> _session_events s = false ->
  check_lock_state_fallback D P env = Ret true ->
  exists s',
    run_timer_tick D P fsub now env s = Ret s' /\
    is_locked s' = true /\
    lock_start_time s' = (if is_locked s then lock_start_time s else now) /\
    fatigue s' = fatigue s /\ running s' = running s /\
    _session_events s' = false.
Proof.
  intros Hs E C.
  eexists. split; [exact (run_timer_tick_polling fsub D P now env s true E C)|].
  set (mid := detect_transition D fsub now true s).
  assert (Hmid : is_locked mid = true /\
                 lock_start_time mid
                 = (if is_locked s then lock_start_time s else now) /\
                 fatigue mid = fatigue s /\ running mid = running s /\
                 _session_events mid = false).
  { subst mid. unfold detect_transition.
    destruct (is_locked s) eqn:L; cbn; auto. }
  destruct Hmid as (M1 & M2 & M3 & M4 & M5).
  destruct (update_icon_session (clamp_fatigue mid)) as (-> & -> & ->).
  destruct (update_icon_hook (clamp_fatigue mid)) as (-> & _).
  rewrite update_icon_fatigue.
  rewrite clamp_fatigue_id
    by (unfold fatigue_in_range in *; now rewrite M3).
  auto.
Qed.

(** A polling tick whose probe answers unlocked while a lock is recorded. *)
Lemma polling_tick_unlock (fsub : Q -> Q -> Q) D P now env s :
  _session_events s = false -> is_locked s = true ->
  check_lock_state_fallback D P env = Ret false ->
  exists s',
    run_timer_tick D P fsub now env s = Ret s' /\
    is_locked s' = false /\ lock_start_time s' = 0%Q /\
    fatigue s'
    = Z.min LIMIT_DEATH
        (fatigue (handle_unlock_heal D
                    (if Qeq_bool (lock_start_time s) 0 then 0%Q
                     else fsub now (lock_start_time s)) s) + 1).
Proof.
  intros E L C.
  eexists. split; [exact (run_timer_tick_polling fsub D P now env s false E C)|].
  set (healed := handle_unlock_heal D
                   (if Qeq_bool (lock_start_time s) 0 then 0%Q
                    else fsub now (lock_start_time s))
                   (set_lock_start_time 0%Q (set_is_locked false s))).
  assert (Hmid : detect_transition D fsub now false s = healed).
  { unfold detect_transition. rewrite L. reflexivity. }
  rewrite Hmid.
  pose proof (handle_unlock_heal_in_range D
                (if Qeq_bool (lock_start_time s) 0 then 0%Q
                 else fsub now (lock_start_time s))
                (set_lock_start_time 0%Q (set_is_locked false s))) as Hh.
  fold healed in Hh.
  destruct (update_icon_session (clamp_fatigue (accrue healed)))
    as (-> & -> & _).
  rewrite update_icon_fatigue, clamp_fatigue_id by now apply accrue_in_range.
  unfold clamp_fatigue. cbn [is_locked lock_start_time set_fatigue].
  destruct (accrue_session healed) as (-> & -> & _).
  rewrite accrue_fatigue.
  destruct (handle_unlock_heal_session D
              (if Qeq_bool (lock_start_time s) 0 then 0%Q
               else fsub now (lock_start_time s))
              (set_lock_start_time 0%Q (set_is_locked false s)))
    as (Hl & Ht & _).
  fold healed in Hl, Ht. rewrite Hl, Ht.
  split; [reflexivity|]. split; [reflexivity|].
  assert (Hf : fatigue healed
               = fatigue (handle_unlock_heal D
                   (if Qeq_bool (lock_start_time s) 0 then 0%Q
                    else fsub now (lock_start_time s)) s)).
  { subst healed. now rewrite !handle_unlock_heal_fatigue. }
  rewrite <- Hf. unfold fatigue_in_range, LIMIT_DEATH in *.
  destruct (Z.ltb_spec (fatigue healed) 80); lia.
Qed.

(** Ticks that keep finding a locked session locked. *)
Lemma run_timer_stays_locked (fsub : Q -> Q -> Q) D P ticks :
  forall s,
    fatigue_in_range s -> running s = true -> _session_events s = false ->
    is_locked s = true ->
    Forall (fun m => check_lock_state_fallback D P (snd m) = Ret true)
      ticks ->
    forall last,
      exists s1,
        run_timer D P fsub (ticks ++ last) s = run_timer D P fsub last s1 /\
        fatigue s1 = fatigue s /\ running s1 = true /\
        _session_events s1 = false /\ is_locked s1 = true /\
        lock_start_time s1 = lock_start_time s.
Proof.
  induction ticks as [|[now env] ticks IH]; intros s Hs R E L A last.
  - exists s. cbn [app]. repeat split; assumption.
  - inversion A as [|? ? C A']; subst. cbn [snd] in C.
    destruct (polling_tick_locked fsub D P now env s Hs E C)
      as (s1 & T & L1 & S1 & F1 & R1 & E1).
    rewrite L in S1.
    destruct (IH s1) with (last := last)
      as (s2 & T2 & F2 & R2 & E2 & L2 & S2); auto; try congruence.
    { unfold fatigue_in_range in *. now rewrite F1. }
    exists s2. cbn [app run_timer]. rewrite R, T.
    repeat split; congruence.
Qed.

(** X12.  Polling times a lock from the tick that first finds the session
    locked: later ticks that still find it locked keep that start and leave
    the score alone, and the tick that finds it unlocked again heals by the
    difference, as floats subtract, between its time and the time of that
    first tick, clears the lock start and then adds its minute. *)
Theorem polling_times_lock_from_first_sight (fsub : Q -> Q -> Q)
  (D : bool) (P : string)
  (t1 t2 : Q) (e1 e2 : ProbeEnv) (between : list (Q * ProbeEnv))
  (s : BioDaemon) :
  fatigue_in_range s -> running s = true -> _session_events s = false ->
  is_locked s = false -> Qeq_bool t1 0 = false ->
  check_lock_state_fallback D P e1 = Ret true ->
  Forall (fun m => check_lock_state_fallback D P (snd m) = Ret true)
    between ->
  check_lock_state_fallback D P e2 = Ret false ->
  (exists locked,
     run_timer D P fsub ((t1, e1) :: between) s = Ret locked /\
     is_locked locked = true /\ lock_start_time locked = t1 /\
     fatigue locked = fatigue s) /\
  (exists s',
     run_timer D P fsub ((t1, e1) :: between ++ [(t2, e2)]) s = Ret s' /\
     is_locked s' = false /\ lock_start_time s' = 0%Q /\
     fatigue s'
     = Z.min LIMIT_DEATH (fatigue (handle_unlock_heal D (fsub t2 t1) s) + 1)).
Proof.
  intros Hs R E L Ht C1 A C2.
  destruct (polling_tick_locked fsub D P t1 e1 s Hs E C1)
    as (s1 & T1 & L1 & S1 & F1 & R1 & E1).
  rewrite L in S1. cbv iota in S1.
  assert (Hs1 : fatigue_in_range s1)
    by (unfold fatigue_in_range in *; now rewrite F1).
  assert (R1' : running s1 = true) by congruence.
  split.
  - destruct (run_timer_stays_locked fsub D P between s1 Hs1 R1' E1 L1 A [])
      as (s2 & T2 & F2 & R2 & E2 & L2 & S2).
    rewrite app_nil_r in T2.
    exists s2. cbn [run_timer]. rewrite R, T1, T2. cbn.
    repeat split; congruence.
  - destruct (run_timer_stays_locked fsub D P between s1 Hs1 R1' E1 L1 A
                [(t2, e2)])
      as (s2 & T2 & F2 & R2 & E2 & L2 & S2).
    destruct (polling_tick_unlock fsub D P t2 e2 s2 E2 L2 C2)
      as (s' & T' & L' & S' & F').
    exists s'. cbn [run_timer app]. rewrite R, T1, T2. cbn [run_timer].
    rewrite R2, T'. split; [reflexivity|]. split; [exact L'|].
    split; [exact S'|].
    rewrite F', S2, S1, Ht.
    rewrite !handle_unlock_heal_fatigue. now rewrite F2, F1.
Qed.

(** X12, at a lock first seen at second 60, seen again at seconds 120 and
    180, and gone at second 360, from a score of 50: five minutes heal 20,
    and the tick adds 1. *)
Lemma polling_times_lock_from_first_sight_witness :
  exists s',
    run_timer false "win32" whole_seconds_sub
      [(60 # 1, probe_no_desktop); (120 # 1, probe_no_desktop);
       (180 # 1, probe_no_desktop); (360 # 1, probe_default)]
      (at_score 50) = Ret s' /\
    is_locked s' = false /\ fatigue s' = 31.
Proof.
  destruct (polling_times_lock_from_first_sight whole_seconds_sub false "win32"
              (60 # 1) (360 # 1) probe_no_desktop probe_default
              [(120 # 1, probe_no_desktop); (180 # 1, probe_no_desktop)]
              (at_score 50))
    as (_ & s' & T & L & _ & F);
    try reflexivity.
  - unfold fatigue_in_range. by_evaluation.
  - repeat constructor.
  - exists s'. split; [exact T|]. split; [exact L|].
    rewrite F. reflexivity.
Defined.

(** ** The lock probe when its calls work *)

(** X13.  When the desktop calls return and the name is read, the probe
    answers without touching the idle time and without raising: unlocked
    exactly when the name, lower-cased, is "default", and locked for every
    other name, the lock and screensaver desktops included. *)
Theorem desktop_name_decides (D : bool) (env : ProbeEnv) (hDesk : Z)
  (name : string) :
  OpenInputDesktop env = Ret hDesk -> hDesk <> 0 ->
  GetUserObjectInformationW env = Ret (Some name) ->
  CloseDesktop env = Ret tt ->
  check_lock_state_fallback D "win32" env
  = Ret (negb (String.eqb (lower name) "default")) /\
  (check_lock_state_fallback D "win32" env = Ret false <->
   lower name = "default"%string).
Proof.
  intros Ho Hh Hn Hc.
  assert (E : check_lock_state_fallback D "win32" env
              = Ret (negb (String.eqb (lower name) "default"))).
  { unfold check_lock_state_fallback.
    rewrite String.eqb_refl. cbn [negb].
    apply Z.eqb_neq in Hh. rewrite Ho, Hh, Hn, Hc.
    destruct (String.eqb (lower name) "default"); [reflexivity|].
    destruct (_ || _)%bool; reflexivity. }
  split; [exact E|]. rewrite E.
  destruct (String.eqb_spec (lower name) "default") as [H|H]; cbn;
    split; intros H'; try reflexivity; try assumption; try discriminate.
  contradiction.
Qed.

(** X13, at the desktops named "Default" and "Winlogon". *)
Lemma desktop_name_decides_witness :
  check_lock_state_fallback false "win32" (probe_desktop_named "Default")
  = Ret false /\
  check_lock_state_fallback false "win32" (probe_desktop_named "Winlogon")
  = Ret true.
Proof.
  split.
  - rewrite (proj1 (desktop_name_decides false
                      (probe_desktop_named "Default") 3 "Default"
                      eq_refl ltac:(discriminate) eq_refl eq_refl)).
    reflexivity.
  - rewrite (proj1 (desktop_name_decides false
                      (probe_desktop_named "Winlogon") 3 "Winlogon"
                      eq_refl ltac:(discriminate) eq_refl eq_refl)).
    reflexivity.
Defined.

(** X14.  When a desktop call raises and the idle time can be read, the
    probe answers locked exactly when the last input lies 60000 ticks or
    more behind the clock (10000 in debug mode), whatever the desktop calls
    would have answered. *)
Theorem idle_time_decides (D : bool) (env : ProbeEnv) (dwTime tick : Z) :
  desktop_probe_raises env ->
  GetLastInputInfo env = Ret (Some dwTime) -> get_tick env = Ret tick ->
  (check_lock_state_fallback D "win32" env = Ret true <->
   (if D then 10000 else 60000) <= tick - dwTime) /\
  (check_lock_state_fallback D "win32" env = Ret false <->
   tick - dwTime < (if D then 10000 else 60000)).
Proof.
  intros Hr Hi Ht.
  rewrite check_lock_state_fallback_raising by exact Hr.
  unfold idle_time_heuristic. rewrite Hi, Ht.
  destruct (Z.leb_spec (if D then 10000 else 60000) (tick - dwTime));
    split; split; intros H'; try reflexivity; try lia; discriminate.
Qed.

(** X14, at a last input 59999 ticks behind the clock. *)
Lemma idle_time_decides_witness :
  check_lock_state_fallback false "win32" (probe_idle 1 60000) = Ret false.
Proof.
  apply (idle_time_decides false (probe_idle 1 60000) 1 60000).
  - left. reflexivity.
  - reflexivity.
  - reflexivity.
  - by_evaluation.
Defined.

(** ** The timer in event-driven mode *)

(** X15.  In event-driven mode the timer never probes the host: whatever
    the probe would answer or raise, every tick returns, the result does not
    depend on the host, and the session state and the lock start, written
    by the window procedure alone, are left as they are. *)
Theorem event_driven_timer_never_probes (fsub : Q -> Q -> Q)
  (D : bool) (P : string)
  (ticks : list (Q * ProbeEnv)) (s : BioDaemon) :
  _session_events s = true ->
  exists s',
    run_timer D P fsub ticks s = Ret s' /\
    is_locked s' = is_locked s /\ lock_start_time s' = lock_start_time s /\
    forall env,
      run_timer D P fsub (map (fun m => (fst m, env)) ticks) s = Ret s'.
Proof.
  revert s. induction ticks as [|[now env] ticks IH]; intros s E.
  - exists s. repeat split.
  - cbn [run_timer map fst].
    destruct (running s) eqn:R; [|exists s; repeat split].
    rewrite run_timer_tick_event_driven by exact E.
    set (s1 := update_icon (if negb (is_locked s) then accrue s else s)).
    assert (H1 : _session_events s1 = true /\ is_locked s1 = is_locked s /\
                 lock_start_time s1 = lock_start_time s).
    { subst s1.
      destruct (update_icon_hook
                  (if negb (is_locked s) then accrue s else s)) as (-> & _).
      destruct (update_icon_session
                  (if negb (is_locked s) then accrue s else s))
        as (-> & -> & _).
      destruct (is_locked s) eqn:L; cbn [negb]; [auto|].
      rewrite accrue_hook.
      destruct (accrue_session s) as (-> & -> & _). auto. }
    destruct H1 as (E1 & L1 & S1).
    destruct (IH s1 E1) as (s' & T & L & S & Henv).
    exists s'. split; [exact T|]. split; [congruence|].
    split; [congruence|].
    intros env'. rewrite run_timer_tick_event_driven by exact E.
    apply Henv.
Qed.

(** X15, at three ticks whose probes would raise, on a locked session. *)
Lemma event_driven_timer_never_probes_witness :
  exists s',
    run_timer false "win32" whole_seconds_sub
      (repeat (0%Q, probe_raises_idle_raises) 3)
      (event_driven (locked_since (7 # 1) (at_score 12))) = Ret s' /\
    is_locked s' = true /\ lock_start_time s' = (7 # 1).
Proof.
  destruct (event_driven_timer_never_probes whole_seconds_sub false "win32"
              (repeat (0%Q, probe_raises_idle_raises) 3)
              (event_driven (locked_since (7 # 1) (at_score 12))) eq_refl)
    as (s' & T & L & S & _).
  exists s'. split; [exact T|]. split; [exact L | exact S].
Defined.

(** ** Installation: the other ways out *)

(** X16.  Off Windows neither the installation nor the teardown does
    anything.  On Windows, when the window id cannot be obtained, the
    installation returns having cleared the stored handle and called
    nothing.  And no native call of the installation is guarded: when
    reading the procedure, swapping it or registering raises, the exception
    leaves [install_session_notifications], the session events staying
    inactive. *)
Theorem installation_ways_out (P : string) (ptr : Z) (env : InstallEnv)
  (uenv : UninstallEnv) (s : BioDaemon) (w : World) :
  (P <> "win32"%string ->
   install_session_notifications P ptr env (s, w) = (Ret tt, (s, w)) /\
   uninstall_session_notifications P uenv (s, w) = (Ret tt, (s, w))) /\
  (winfo_id env = Raised ->
   install_session_notifications "win32" ptr env (s, w)
   = (Ret tt, (set_hwnd None s, w))) /\
  (forall hwnd,
     winfo_id env = Ret hwnd -> window_proc w <> 0 ->
     get_wndproc_fault env = Raises \/
     get_wndproc_fault env = NoFault /\ swap_fault env = Raises \/
     get_wndproc_fault env = NoFault /\ swap_fault env = NoFault /\
     register_fault env = Raises ->
     _session_events s = false ->
     fst (install_session_notifications "win32" ptr env (s, w)) = Raised /\
     _session_events
       (fst (snd (install_session_notifications "win32" ptr env (s, w))))
     = false).
Proof.
  split; [|split].
  - intros HP. apply String.eqb_neq in HP.
    unfold install_session_notifications, uninstall_session_notifications.
    rewrite HP. split; reflexivity.
  - intros Hw. destruct env as [wid gf sf rf bf]. cbn in Hw. subst wid.
    reflexivity.
  - intros hwnd Hw Hp Hf E.
    destruct env as [wid gf sf rf bf]. cbn in Hw, Hf. subst wid.
    destruct (c_void_p_result_nonnull _ Hp) as (Hr & Ht).
    apply Z.eqb_neq in Hp.
    destruct Hf as [-> | [(-> & ->) | (-> & -> & ->)]];
      run_method; rewrite ?Hr; cbn; rewrite ?Hp; cbn; split;
      try reflexivity; exact E.
Qed.

(** X16, at a host without window id. *)
Lemma installation_ways_out_witness :
  install_session_notifications "win32" 9000 install_no_window
    (init, fresh_world) = (Ret tt, (set_hwnd None init, fresh_world)).
Proof.
  apply (installation_ways_out "win32" 9000 install_no_window uninstall_works
           init fresh_world).
  reflexivity.
Defined.

(** X17.  After an installation on which every call works, the mode is
    event-driven, the window runs the replacement procedure and is
    registered for session notifications, the score is untouched, and the
    replacement procedure forwards every message to the procedure that the
    window had before. *)
Theorem installed_hook_forwards_to_original (fsub : Q -> Q -> Q)
  (ptr : Z) (env : InstallEnv)
  (s : BioDaemon) (w : World) (hwnd : Z) :
  winfo_id env = Ret hwnd -> get_wndproc_fault env = NoFault ->
  swap_fault env = NoFault -> register_fault env = NoFault ->
  window_proc w <> 0 ->
  exists s' w',
    install_session_notifications "win32" ptr env (s, w)
    = (Ret tt, (s', w')) /\
    _session_events s' = true /\ fatigue s' = fatigue s /\
    window_proc w' = ptr /\ session_registered w' = true /\
    forall D now msg wParam,
      snd (py_wndproc D fsub now msg wParam s') = Some (window_proc w).
Proof.
  intros Hid Hget Hswap Hreg Hp.
  destruct (install_succeeds ptr env s w hwnd Hid Hget Hswap Hreg Hp)
    as (s' & Hrun & He & Hw & Ho & Hh).
  do 2 eexists. split; [exact Hrun|]. split; [exact He|].
  split.
  { pose proof (install_keeps_fatigue "win32" ptr env s w) as Hf.
    rewrite Hrun in Hf. exact Hf. }
  split; [reflexivity|]. split; [reflexivity|].
  intros D now msg wParam.
  assert (Hk : _orig_wndproc (fst (py_wndproc D fsub now msg wParam s'))
               = _orig_wndproc s').
  { pose proof (step_same_hook fsub D "win32" (WindowMessage now msg wParam) s')
      as (_ & _ & Hk & _). exact Hk. }
  unfold py_wndproc in *. cbn [fst snd] in *. rewrite Hk, Ho.
  destruct (c_void_p_result_nonnull _ Hp) as (_ & ->). reflexivity.
Qed.

(** X17, on the instance and the host at start, for the window 77 and the
    callback at 9000, at a paint message (15). *)
Lemma installed_hook_forwards_to_original_witness :
  exists s' w',
    install_session_notifications "win32" 9000 (install_works 77)
      (init, fresh_world) = (Ret tt, (s', w')) /\
    window_proc w' = 9000 /\
    snd (py_wndproc false whole_seconds_sub 0 15 0 s') = Some 4242.
Proof.
  destruct (installed_hook_forwards_to_original whole_seconds_sub
      9000 (install_works 77)
              init fresh_world 77)
    as (s' & w' & R & _ & _ & Wp & _ & F);
    try reflexivity; try discriminate.
  exists s', w'. split; [exact R|]. split; [exact Wp|]. apply F.
Defined.

(** ** The tray menu and the GUI loop *)

(** X18.  The menu offers the ritual exactly when the score has reached the
    cap, that is, exactly in the tombstone state; it always ends with an
    enabled Exit; below the cap it shows the healthy minutes left while the
    score is under 45 and the overdue minutes from 45 on, none of them
    negative, with the score out of 80; and an item is enabled exactly when
    a click on it does something. *)
Theorem menu_offers_ritual_when_dead (s : BioDaemon) :
  (In (MenuItem PerformRitual ActionResurrect true) (create_menu s) <->
   LIMIT_DEATH <= fatigue s) /\
  (In (MenuItem PerformRitual ActionResurrect true) (create_menu s) <->
   get_current_state s = "tombstone"%string) /\
  last (create_menu s) SEPARATOR = MenuItem ExitLabel ActionExit true /\
  (fatigue s < LIMIT_ROUND ->
   exists r, 0 < r /\ r = LIMIT_ROUND - fatigue s /\
     create_menu s =
       [MenuItem (Healthy r) NoAction false;
        MenuItem (FatigueOf (fatigue s) 80) NoAction false; SEPARATOR;
        MenuItem AutoHeal NoAction false;
        MenuItem ExitLabel ActionExit true]) /\
  (LIMIT_ROUND <= fatigue s < LIMIT_DEATH ->
   exists n, 0 <= n < 35 /\ n = fatigue s - LIMIT_ROUND /\
     create_menu s =
       [MenuItem (Overdue n) NoAction false;
        MenuItem (FatigueOf (fatigue s) 80) NoAction false; SEPARATOR;
        MenuItem AutoHeal NoAction false;
        MenuItem ExitLabel ActionExit true]) /\
  (forall label action enabled,
     In (MenuItem label action enabled) (create_menu s) ->
     (enabled = true <-> action <> NoAction)).
Proof.
  assert (Ht : get_current_state s = "tombstone"%string
               <-> LIMIT_DEATH <= fatigue s).
  { rewrite <- String.eqb_eq, get_current_state_tombstone.
    apply Z.leb_le. }
  unfold create_menu, LIMIT_DEATH, LIMIT_ROUND in *.
  destruct (Z.leb_spec 80 (fatigue s)) as [Hd|Hd].
  - split; [split; [intros _; exact Hd | intros _; cbn; auto]|].
    split; [rewrite Ht; split; [intros _; exact Hd | intros _; cbn; auto]|].
    split; [reflexivity|]. split; [lia|]. split; [lia|].
    intros label action enabled Hin. cbn in Hin.
    destruct Hin as [H|[H|[H|[H|[]]]]]; inversion H; subst;
      split; intros; congruence.
  - assert (Hno : ~ In (MenuItem PerformRitual ActionResurrect true)
                      [MenuItem
                         (if fatigue s <? 45
                          then Healthy (Z.max 0 (45 - fatigue s))
                          else Overdue (fatigue s - 45)) NoAction false;
                       MenuItem (FatigueOf (fatigue s) 80) NoAction false;
                       SEPARATOR; MenuItem AutoHeal NoAction false;
                       MenuItem ExitLabel ActionExit true]).
    { cbn. intros [H|[H|[H|[H|[H|[]]]]]]; discriminate. }
    split; [split; [intros H; now elim Hno | lia]|].
    split; [rewrite Ht; split; [intros H; now elim Hno | lia]|].
    split; [reflexivity|]. split; [|split].
    + intros Hr. exists (45 - fatigue s).
      split; [lia|]. split; [reflexivity|].
      apply Z.ltb_lt in Hr. rewrite Hr.
      now replace (Z.max 0 (45 - fatigue s)) with (45 - fatigue s) by lia.
    + intros Hr. exists (fatigue s - 45).
      split; [lia|]. split; [reflexivity|].
      destruct (Z.ltb_spec (fatigue s) 45); [lia | reflexivity].
    + intros label action enabled Hin. cbn in Hin.
      destruct Hin as [H|[H|[H|[H|[H|[]]]]]]; inversion H; subst;
        split; intros; congruence.
Qed.

(** X18, at a score of 50: five minutes overdue. *)
Lemma menu_offers_ritual_when_dead_witness :
  create_menu (at_score 50) =
    [MenuItem (Overdue 5) NoAction false;
     MenuItem (FatigueOf 50 80) NoAction false; SEPARATOR;
     MenuItem AutoHeal NoAction false; MenuItem ExitLabel ActionExit true].
Proof.
  destruct (menu_offers_ritual_when_dead (at_score 50))
    as (_ & _ & _ & _ & H & _).
  destruct H as (n & _ & -> & ->); [by_evaluation | reflexivity].
Defined.

Lemma gui_loop_not_running messages s :
  running s = false -> gui_loop messages s = s.
Proof. intros R. destruct messages as [|[msg ok] rest]; cbn; now rewrite ?R. Qed.

Lemma run_main_loop_message_fatigue msg ok s :
  fatigue (run_main_loop_message msg ok s) = fatigue s \/
  fatigue (run_main_loop_message msg ok s) = 0.
Proof.
  unfold run_main_loop_message.
  destruct (String.eqb msg "SHOW_RESURRECT_DIALOG").
  - destruct ok; [right; apply resurrect_fatigue | now left].
  - left. destruct (String.eqb msg "EXIT"); reflexivity.
Qed.

(** X19.  The GUI loop takes the messages in the order of the queue and
    stops at the first "EXIT": what is queued behind it is never handled
    and the run flag is down afterwards.  When the loop comes round with
    the run flag down, as after [on_exit], it handles nothing more, so a
    ritual requested before the exit and not yet handled is dropped.
    Whatever the messages and the answers to the dialog, the loop either
    leaves the score alone or ends with the score at 0. *)
Theorem gui_loop_stops_at_exit (before after : list (string * bool))
  (askokcancel : bool) (s : BioDaemon) :
  gui_loop (before ++ ("EXIT"%string, askokcancel) :: after) s
  = gui_loop (before ++ [("EXIT"%string, askokcancel)]) s /\
  running (gui_loop (before ++ ("EXIT"%string, askokcancel) :: after) s)
  = false /\
  (forall gui_queue answers,
     let (s', gui_queue') := on_exit s (action_resurrect gui_queue) in
     last gui_queue' EmptyString = "EXIT"%string /\
     gui_loop (combine gui_queue' answers) s' = s') /\
  (fatigue (gui_loop before s) = fatigue s \/
   fatigue (gui_loop before s) = 0).
Proof.
  split; [|split; [|split]].
  - revert s. induction before as [|[msg ok] rest IH]; intros s; cbn.
    + reflexivity.
    + destruct (running s); [|reflexivity].
      destruct (negb (String.eqb msg "SHOW_RESURRECT_DIALOG")
                && String.eqb msg "EXIT")%bool; [reflexivity | apply IH].
  - revert s. induction before as [|[msg ok] rest IH]; intros s; cbn.
    + destruct (running s) eqn:R; [reflexivity | exact R].
    + destruct (running s) eqn:R; [|exact R].
      destruct (String.eqb_spec msg "SHOW_RESURRECT_DIALOG") as [->|Hm];
        cbn [negb andb]; [apply IH|].
      destruct (String.eqb_spec msg "EXIT") as [->|He]; [|apply IH].
      reflexivity.
  - intros gui_queue answers. unfold on_exit, action_resurrect. split.
    + rewrite last_last. reflexivity.
    + now apply gui_loop_not_running.
  - revert s. induction before as [|[msg ok] rest IH]; intros s; cbn.
    + now left.
    + destruct (running s); [|now left].
      pose proof (run_main_loop_message_fatigue msg ok s) as Hm.
      destruct (negb (String.eqb msg "SHOW_RESURRECT_DIALOG")
                && String.eqb msg "EXIT")%bool; [exact Hm|].
      destruct (IH (run_main_loop_message msg ok s)) as [H|H];
        [rewrite H; exact Hm | now right].
Qed.

Lemma gui_loop_same_hook messages :
  forall s, same_hook s (gui_loop messages s).
Proof.
  induction messages as [|[msg ok] rest IH]; intros s; cbn.
  - repeat split.
  - destruct (running s); [|repeat split].
    pose proof (step_same_hook whole_seconds_sub
        false "win32" (GuiMessage msg ok) s) as Hm.
    cbn [step] in Hm.
    destruct (negb (String.eqb msg "SHOW_RESURRECT_DIALOG")
              && String.eqb msg "EXIT")%bool; [exact Hm|].
    destruct (IH (run_main_loop_message msg ok s)) as (E1 & E2 & E3 & E4).
    destruct Hm as (F1 & F2 & F3 & F4).
    unfold same_hook. rewrite E1, E2, E3, E4. auto.
Qed.

(** ** The main thread from installation to teardown *)

(** Once the installation has returned, the main thread runs the loop and
    then the teardown. *)
Lemma run_main_loop_after_install P ptr ienv messages uenv s w s1 w1 :
  install_session_notifications P ptr ienv (s, w) = (Ret tt, (s1, w1)) ->
  run_main_loop P ptr ienv messages uenv (s, w)
  = uninstall_session_notifications P uenv (gui_loop messages s1, w1).
Proof.
  intros Hrun. unfold run_main_loop, bind, modify_self.
  rewrite Hrun. reflexivity.
Qed.


(** X20.  [run_main_loop] leaves the host as it found it, under these
    conditions: the window id is obtained and is not 0, the window was not
    registered before, reading the window procedure works, the swap and the
    registration each work or fail through their return value, and the
    rollback, the unregistration and the restoration work when they are
    called.  Then whether the hook got installed, or the swap failed, or
    the registration failed and was rolled back, and whatever messages the
    loop handled in between, the main thread returns with no hook stored,
    the window running its original procedure and no registration for
    session notifications left. *)
Theorem run_main_loop_restores_host (ptr : Z) (ienv : InstallEnv)
  (messages : list (string * bool)) (uenv : UninstallEnv)
  (s : BioDaemon) (w : World) (hwnd : Z) :
  winfo_id ienv = Ret hwnd -> hwnd <> 0 ->
  get_wndproc_fault ienv = NoFault -> swap_fault ienv <> Raises ->
  register_fault ienv <> Raises -> rollback_fault ienv = NoFault ->
  unregister_fault uenv = NoFault -> restore_fault uenv = NoFault ->
  window_proc w <> 0 -> session_registered w = false ->
  exists s' w',
    run_main_loop "win32" ptr ienv messages uenv (s, w)
    = (Ret tt, (s', w')) /\
    hook_cleared s' /\
    window_proc w' = window_proc w /\ session_registered w' = false.
Proof.
  intros Hid Hn Hget Hswap Hreg Hback Hun Hres Hp Hr.
  assert (Hfail : forall s1 w1,
            install_session_notifications "win32" ptr ienv (s, w)
            = (Ret tt, (s1, w1)) ->
            _session_events s1 = false -> _orig_wndproc s1 = None ->
            window_proc w1 = window_proc w ->
            session_registered w1 = session_registered w ->
            exists s' w',
              run_main_loop "win32" ptr ienv messages uenv (s, w)
              = (Ret tt, (s', w')) /\
              hook_cleared s' /\
              window_proc w' = window_proc w /\
              session_registered w' = false).
  { intros s1 w1 Hrun He Ho Hw Hs.
    rewrite (run_main_loop_after_install _ _ _ _ _ _ _ _ _ Hrun).
    destruct (gui_loop_same_hook messages s1) as (G1 & _ & G3 & _).
    pose proof (uninstall_never_raises "win32" uenv
                  (gui_loop messages s1, w1)) as Hret.
    pose proof (uninstall_clears uenv (gui_loop messages s1, w1)) as Hc.
    pose proof (uninstall_without_hook "win32" uenv
                  (gui_loop messages s1) w1) as Hworld.
    destruct (uninstall_session_notifications "win32" uenv
                (gui_loop messages s1, w1)) as [o [s' w']].
    cbn [fst snd] in *. subst o.
    exists s', w'. split; [reflexivity|]. split; [exact Hc|].
    rewrite Hworld by congruence. split; congruence. }
  destruct (swap_fault ienv) eqn:Sf; [|clear Hswap|congruence].
  - destruct (register_fault ienv) eqn:Rf; [|clear Hreg|congruence].
    + destruct (install_succeeds ptr ienv s w hwnd Hid Hget Sf Rf Hp)
        as (s1 & Hrun & He & Hw & Ho & Hh).
      rewrite (run_main_loop_after_install _ _ _ _ _ _ _ _ _ Hrun).
      destruct (gui_loop_same_hook messages s1) as (G1 & G2 & G3 & G4).
      destruct (uninstall_installed uenv (gui_loop messages s1)
                  {| window_proc := ptr; session_registered := true;
                     native_calls := native_calls w ++
                       [GetWindowLongPtrW hwnd; SetWindowLongPtrW hwnd ptr;
                        WTSRegisterSessionNotification hwnd] |}
                  hwnd (window_proc w) ptr)
        as (s' & w' & Hrun' & Hc & _ & Hwp & Hsr);
        try congruence.
      exists s', w'. split; [exact Hrun'|]. split; [exact Hc|]. auto.
    + destruct (install_register_fails ptr ienv s w hwnd Hid Hget Sf Rf
                  Hback Hp) as (s1 & Hrun & He & Hw & Ho & _).
      eapply Hfail; eauto.
  - destruct (install_swap_fails ptr ienv s w hwnd Hid Sf)
      as (s1 & Hrun & He & Hw & Ho & _); [congruence|].
    eapply Hfail; eauto.
Qed.

(** X20, at an installation that works, a confirmed ritual and an exit, on
    the instance and the host at start. *)
Lemma run_main_loop_restores_host_witness :
  exists s' w',
    run_main_loop "win32" 9000 (install_works 77)
      [("SHOW_RESURRECT_DIALOG"%string, true); ("EXIT"%string, false)]
      uninstall_works (init, fresh_world) = (Ret tt, (s', w')) /\
    hook_cleared s' /\ window_proc w' = 4242 /\
    session_registered w' = false.
Proof.
  destruct (run_main_loop_restores_host 9000 (install_works 77)
              [("SHOW_RESURRECT_DIALOG"%string, true);
               ("EXIT"%string, false)]
              uninstall_works init fresh_world 77)
    as (s' & w' & R & C & Wp & Sr);
    try reflexivity; try discriminate.
  exists s', w'. split; [exact R|]. split; [exact C|].
  split; [exact Wp | exact Sr].
Defined.

(** ** From ticks to the tombstone *)





(** ** A teardown whose unregistration raises *)

(** X22.  The two calls of the teardown share one [try]: on an installed
    hook, with callback and original procedure stored, a teardown whose
    unregistration returns goes on to the restoring call, but when the
    unregistration raises the restoration is skipped.  The teardown still
    returns and forgets the hook, but the only call made is the
    unregistration and the window keeps the procedure it had. *)
Theorem raising_unregistration_skips_restore (env : UninstallEnv)
  (s : BioDaemon) (w : World) (hwnd orig ptr : Z) :
  _session_events s = true -> _wndproc s = Some ptr ->
  _orig_wndproc s = Some orig -> _hwnd s = Some hwnd ->
  hwnd <> 0 -> orig <> 0 ->
  unregister_fault env = Raises ->
  (exists s',
     uninstall_session_notifications "win32" env (s, w)
     = (Ret tt,
        (s', {| window_proc := window_proc w;
                session_registered := session_registered w;
                native_calls := native_calls w ++
                  [WTSUnRegisterSessionNotification hwnd] |})) /\
     hook_cleared s') /\
  (forall env',
     unregister_fault env' <> Raises ->
     exists s' w',
       uninstall_session_notifications "win32" env' (s, w)
       = (Ret tt, (s', w')) /\
       native_calls w' = native_calls w ++
         [WTSUnRegisterSessionNotification hwnd;
          SetWindowLongPtrW hwnd orig]).
Proof.
  intros He Hw Ho Hh Hn Hp Hu. split.
  - destruct env as [uf rf]. cbn in Hu. subst uf.
    run_method. rewrite He, Hw, Ho, Hh. cbn.
    apply Z.eqb_neq in Hn. rewrite Hn. cbn.
    eexists. split; [reflexivity|]. repeat split.
  - intros env' Hu'.
    destruct (uninstall_installed env' s w hwnd orig ptr He Hw Ho Hh Hn Hp Hu')
      as (s' & w' & Hrun & _ & Hcalls & _).
    exists s', w'. split; [exact Hrun | exact Hcalls].
Qed.

(** X22, at the hook as an installation leaves it for the window 77, the
    callback at 9000 and the original procedure at 4242. *)
Lemma raising_unregistration_skips_restore_witness :
  exists s',
    uninstall_session_notifications "win32" uninstall_raising
      (set_hwnd (Some 77)
         (set_orig_wndproc (Some 4242)
            (set_wndproc (Some 9000) (event_driven init))),
       {| window_proc := 9000; session_registered := true;
          native_calls := [] |})
    = (Ret tt,
       (s', {| window_proc := 9000; session_registered := true;
               native_calls := [WTSUnRegisterSessionNotification 77] |})) /\
    hook_cleared s'.
Proof.
  apply (raising_unregistration_skips_restore uninstall_raising
           (set_hwnd (Some 77)
              (set_orig_wndproc (Some 4242)
                 (set_wndproc (Some 9000) (event_driven init))))
           {| window_proc := 9000; session_registered := true;
              native_calls := [] |} 77 4242 9000);
    try reflexivity; discriminate.
Defined.
